(** * Source mapping of slither: decoding [start:length:file] locations

    A shallow embedding of [slither/core/source_mapping/source_mapping.py]:
    the [Source] record with its [content], [content_hash], [__hash__] and
    [__eq__] methods, [_compute_line] and [_convert_source_mapping].

    Python integers are unbounded and are modelled by [Z].  Exceptions are
    modelled by an explicit result type.  The collaborators that live in
    other packages (crytic_compile's line index, file name lookup and
    dependency classification) are fields of the compilation unit record. *)

From Equations Require Import Equations.
From stdpp Require Import gmap strings list.
From Stdlib Require Import ZArith Lia Ascii String.

Local Open Scope string_scope.
Local Open Scope Z_scope.
Local Open Scope list_scope.

(** ** Exceptions and results *)

Inductive exn : Type :=
| KeyError
| ValueError
| AssertionError
| AttributeError
| UnicodeEncodeError
| UnicodeDecodeError
| SlitherException (msg : string).

Inductive result (A : Type) : Type :=
| Ok (a : A)
| Raise (e : exn).
Arguments Ok {A} a.
Arguments Raise {A} e.

#[export] Instance result_ret : MRet result := fun A a => Ok a.

#[export] Instance result_bind : MBind result := fun A B k r =>
  match r with
  | Ok a => k a
  | Raise e => Raise e
  end.

(** ** Python primitives used by the decoder *)

Definition is_digit (c : ascii) : bool :=
  let n := Z.of_nat (nat_of_ascii c) in (48 <=? n) && (n <=? 57).

Definition digit_value (c : ascii) : Z := Z.of_nat (nat_of_ascii c) - 48.

Definition colon : ascii := ":"%char.
Definition minus : ascii := "-"%char.
Definition plus : ascii := "+"%char.

(** The longest prefix of ASCII digits of [s], and what follows it: what a
    greedy repetition of the class of digits consumes. *)
Fixpoint span_digits (s : string) : string * string :=
  match s with
  | EmptyString => (EmptyString, EmptyString)
  | String c t =>
      if is_digit c
      then let '(d, r) := span_digits t in (String c d, r)
      else (EmptyString, s)
  end.

Fixpoint all_digits (s : string) : bool :=
  match s with
  | EmptyString => true
  | String c t => is_digit c && all_digits t
  end.

Fixpoint digits_value (acc : Z) (s : string) : Z :=
  match s with
  | EmptyString => acc
  | String c t => digits_value (10 * acc + digit_value c) t
  end.

(** [int(s)] on the strings the groups of the pattern can capture: an optional
    sign followed by at least one ASCII digit is the decimal value, anything
    else (in particular the empty string and a lone sign) raises
    [ValueError].  What [int] accepts beyond that (surrounding blanks,
    underscores between digits) cannot occur in a captured group.  The
    interpreter refuses a conversion between [int] and [str] of more than
    [int_max_str_digits] digits, the sign not counted and leading zeros
    counted, with [ValueError]; the bound is the default of CPython. *)
Definition int_max_str_digits : Z := 4300.

Definition within_digit_limit (d : string) : bool :=
  Z.of_nat (String.length d) <=? int_max_str_digits.

Definition py_int (s : string) : result Z :=
  let unsigned (d : string) : result Z :=
    match d with
    | EmptyString => Raise ValueError
    | _ =>
        if all_digits d then
          if within_digit_limit d then Ok (digits_value 0 d)
          else Raise ValueError
        else Raise ValueError
    end in
  match s with
  | String c t =>
      if Ascii.eqb c minus then v ← unsigned t; Ok (- v)
      else if Ascii.eqb c plus then unsigned t
      else unsigned s
  | EmptyString => Raise ValueError
  end.

(** One attempt of the pattern of [_convert_source_mapping] at the head of
    [s].  The pattern is three groups separated by colons: digits, digits, and
    an optional minus sign followed by digits; every run of digits may be
    empty.  The result is the three captured groups and the text left after
    the match.  Each greedy run of digits is followed by a character that is
    not a digit, so giving back digits can never turn a failure into a
    success and the greedy run is the only candidate. *)
Definition match_here (s : string) : option ((string * string * string) * string) :=
  let '(g1, r1) := span_digits s in
  match r1 with
  | String c1 r2 =>
      if Ascii.eqb c1 colon then
        let '(g2, r3) := span_digits r2 in
        match r3 with
        | String c2 r4 =>
            if Ascii.eqb c2 colon then
              match r4 with
              | String c3 r5 =>
                  if Ascii.eqb c3 minus
                  then let '(g3, r6) := span_digits r5 in
                       Some ((g1, g2, String minus g3), r6)
                  else let '(g3, r6) := span_digits r4 in
                       Some ((g1, g2, g3), r6)
              | EmptyString => Some ((g1, g2, EmptyString), EmptyString)
              end
            else None
        | EmptyString => None
        end
      else None
  | EmptyString => None
  end.

(** [re.findall(pattern, s)]: the non-overlapping matches, scanning from the
    left; after a match the scan goes on where the match ended, after a
    failure one character further. *)
Equations? re_findall (s : string) : list (string * string * string)
  by wf (String.length s) lt :=
  re_findall s with Equations.Prop.Logic.inspect (match_here s) := {
    | exist _ (Some (g, rest)) Hm => g :: re_findall rest
    | exist _ None Hm with s := {
        | EmptyString => nil
        | String _ t => re_findall t } }.
Proof.
  - assert (Hsp : forall u d r, span_digits u = (d, r) ->
                    (String.length r <= String.length u)%nat).
    { induction u as [|c u IH]; intros d r; simpl.
      - intros [= <- <-]; simpl; lia.
      - destruct (is_digit c).
        + destruct (span_digits u) as [d' r'] eqn:E. intros [= <- <-].
          specialize (IH _ _ eq_refl). lia.
        + intros [= <- <-]; simpl; lia. }
    unfold match_here in Hm.
    destruct (span_digits s) as [g1 r1] eqn:E1. apply Hsp in E1.
    destruct r1 as [|c1 r2]; [discriminate|].
    destruct (Ascii.eqb c1 colon); [|discriminate].
    destruct (span_digits r2) as [g2 r3] eqn:E2. apply Hsp in E2.
    destruct r3 as [|c2 r4]; [discriminate|].
    destruct (Ascii.eqb c2 colon); [|discriminate].
    simpl in *.
    destruct r4 as [|c3 r5].
    + injection Hm as <- <-. simpl. lia.
    + destruct (Ascii.eqb c3 minus).
      * destruct (span_digits r5) as [g3 r6] eqn:E3. apply Hsp in E3.
        injection Hm as <- <-. simpl in *. lia.
      * destruct (span_digits (String c3 r5)) as [g3 r6] eqn:E3. apply Hsp in E3.
        injection Hm as <- <-. simpl in *. lia.
  - simpl. lia.
Qed.

(** [list(range(a, b))]. *)
Definition py_range (a b : Z) : list Z :=
  map (fun i : nat => a + Z.of_nat i) (seq 0 (Z.to_nat (b - a))).

(** [str(n)] for an integer: its decimal digits, after a minus sign when it
    is negative, or [ValueError] when there are more than
    [int_max_str_digits] digits.  [str_nat] gives the digits of a number that
    is not negative. *)
Definition digit_char (d : Z) : ascii := ascii_of_nat (Z.to_nat (48 + d)).

Equations? str_nat (n : Z) : string by wf (Z.to_nat n) lt :=
  str_nat n with Z_lt_dec n 10 := {
    | left _ => String (digit_char n) EmptyString
    | right _ => str_nat (n / 10) +:+ String (digit_char (n mod 10)) EmptyString }.
Proof. apply Z2Nat.inj_lt; Z.div_mod_to_equations; lia. Qed.

Definition py_str (z : Z) : result string :=
  let d := str_nat (Z.abs z) in
  if within_digit_limit d
  then Ok (if z <? 0 then String minus d else d)
  else Raise ValueError.

(** [l[i:j]] with Python's rules: a negative index counts from the end, every
    index is clamped to the sequence, and a crossed range is empty. *)
Definition py_slice {A : Type} (l : list A) (i j : Z) : list A :=
  let n := Z.of_nat (List.length l) in
  let clamp (x : Z) := if x <? 0 then Z.max 0 (x + n) else Z.min x n in
  let lo := clamp i in
  let hi := clamp j in
  take (Z.to_nat (hi - lo)) (drop (Z.to_nat lo) l).

(** ** UTF-8

    A Python [str] is a sequence of code points, a [bytes] a sequence of
    integers below 256; both are lists of [Z] here. *)

Definition is_surrogate (c : Z) : bool := (0xD800 <=? c) && (c <=? 0xDFFF).

(** [chr(c).encode("utf8")]: lone surrogates are refused. *)
Definition utf8_encode_char (c : Z) : result (list Z) :=
  if c <? 0 then Raise UnicodeEncodeError
  else if c <? 0x80 then Ok [c]
  else if c <? 0x800 then Ok [0xC0 + c / 64; 0x80 + c mod 64]
  else if c <? 0x10000 then
    if is_surrogate c then Raise UnicodeEncodeError
    else Ok [0xE0 + c / 4096; 0x80 + (c / 64) mod 64; 0x80 + c mod 64]
  else if c <? 0x110000 then
    Ok [0xF0 + c / 262144; 0x80 + (c / 4096) mod 64;
        0x80 + (c / 64) mod 64; 0x80 + c mod 64]
  else Raise UnicodeEncodeError.

(** [s.encode("utf8")]. *)
Fixpoint utf8_encode (s : list Z) : result (list Z) :=
  match s with
  | [] => Ok []
  | c :: t =>
      b ← utf8_encode_char c;
      r ← utf8_encode t;
      Ok (b ++ r)
  end.

Definition is_continuation (b : Z) : bool := (0x80 <=? b) && (b <=? 0xBF).

(** [b.decode("utf8")], strict: truncated sequences, stray continuation
    bytes, overlong forms, surrogates and values above 0x10FFFF are refused. *)
Fixpoint utf8_decode (bs : list Z) : result (list Z) :=
  match bs with
  | [] => Ok []
  | b0 :: r0 =>
      if (0 <=? b0) && (b0 <? 0x80) then
        t ← utf8_decode r0; Ok (b0 :: t)
      else if (0xC0 <=? b0) && (b0 <? 0xE0) then
        match r0 with
        | b1 :: r1 =>
            let c := (b0 - 0xC0) * 64 + (b1 - 0x80) in
            if is_continuation b1 && (0x80 <=? c)
            then t ← utf8_decode r1; Ok (c :: t)
            else Raise UnicodeDecodeError
        | _ => Raise UnicodeDecodeError
        end
      else if (0xE0 <=? b0) && (b0 <? 0xF0) then
        match r0 with
        | b1 :: b2 :: r2 =>
            let c := (b0 - 0xE0) * 4096 + (b1 - 0x80) * 64 + (b2 - 0x80) in
            if is_continuation b1 && is_continuation b2
               && (0x800 <=? c) && negb (is_surrogate c)
            then t ← utf8_decode r2; Ok (c :: t)
            else Raise UnicodeDecodeError
        | _ => Raise UnicodeDecodeError
        end
      else if (0xF0 <=? b0) && (b0 <? 0xF8) then
        match r0 with
        | b1 :: b2 :: b3 :: r3 =>
            let c := (b0 - 0xF0) * 262144 + (b1 - 0x80) * 4096
                     + (b2 - 0x80) * 64 + (b3 - 0x80) in
            if is_continuation b1 && is_continuation b2 && is_continuation b3
               && (0x10000 <=? c) && (c <? 0x110000)
            then t ← utf8_decode r3; Ok (c :: t)
            else Raise UnicodeDecodeError
        | _ => Raise UnicodeDecodeError
        end
      else Raise UnicodeDecodeError
  end.

(** ** SHA-1 (FIPS 180-4), the digest behind [Crypto.Hash.SHA1] *)

Module SHA1.

Definition w32 (x : Z) : Z := x mod 2 ^ 32.

Definition rotl (n x : Z) : Z :=
  w32 (Z.lor (Z.shiftl x n) (Z.shiftr x (32 - n))).

Definition lnot32 (x : Z) : Z := Z.lxor x 0xFFFFFFFF.

(** Big-endian bytes of a word. *)
Definition be_bytes (count : nat) (x : Z) : list Z :=
  map (fun i : nat => (x / 256 ^ Z.of_nat (count - 1 - i)) mod 256) (seq 0 count).

Definition be_word (bs : list Z) : Z :=
  fold_left (fun acc b => acc * 256 + b) bs 0.

(** The message, one bit, zeros up to 56 modulo 64, the bit length on 64 bits. *)
Definition pad (msg : list Z) : list Z :=
  let len := Z.of_nat (List.length msg) in
  msg ++ [0x80] ++ replicate (Z.to_nat ((55 - len) mod 64)) 0
      ++ be_bytes 8 ((8 * len) mod 2 ^ 64).

Definition block_words (padded : list Z) (i : nat) : list Z :=
  let block := take 64 (drop (64 * i) padded) in
  map (fun j : nat => be_word (take 4 (drop (4 * j) block))) (seq 0 16).

Definition schedule (w16 : list Z) : list Z :=
  fold_left
    (fun w (t : nat) =>
       let at_ (k : nat) := nth (t - k) w 0 in
       w ++ [rotl 1 (Z.lxor (Z.lxor (Z.lxor (at_ 3%nat) (at_ 8%nat)) (at_ 14%nat))
                            (at_ 16%nat))])
    (seq 16 64) w16.

Record state : Type := State { h0 : Z; h1 : Z; h2 : Z; h3 : Z; h4 : Z }.

Definition initial : state :=
  State 0x67452301 0xEFCDAB89 0x98BADCFE 0x10325476 0xC3D2E1F0.

Definition round (w : list Z) (st : state) (t : nat) : state :=
  let '(State a b c d e) := st in
  let '(f, k) :=
    if (t <? 20)%nat then (Z.lor (Z.land b c) (Z.land (lnot32 b) d), 0x5A827999)
    else if (t <? 40)%nat then (Z.lxor (Z.lxor b c) d, 0x6ED9EBA1)
    else if (t <? 60)%nat
         then (Z.lor (Z.lor (Z.land b c) (Z.land b d)) (Z.land c d), 0x8F1BBCDC)
    else (Z.lxor (Z.lxor b c) d, 0xCA62C1D6) in
  State (w32 (rotl 5 a + f + e + k + nth t w 0)) a (rotl 30 b) c d.

Definition compress (padded : list Z) (st : state) (i : nat) : state :=
  let w := schedule (block_words padded i) in
  let '(State a b c d e) := fold_left (round w) (seq 0 80) st in
  State (w32 (h0 st + a)) (w32 (h1 st + b)) (w32 (h2 st + c))
        (w32 (h3 st + d)) (w32 (h4 st + e)).

Definition digest_state (msg : list Z) : state :=
  let padded := pad msg in
  fold_left (compress padded) (seq 0 (List.length padded / 64)) initial.

Definition hex_digit (n : Z) : ascii :=
  if n <? 10 then ascii_of_nat (Z.to_nat (48 + n))
  else ascii_of_nat (Z.to_nat (87 + n)).

Definition is_hex_digit (c : ascii) : bool :=
  let n := Z.of_nat (nat_of_ascii c) in
  ((48 <=? n) && (n <=? 57)) || ((97 <=? n) && (n <=? 102)).

(** Eight lower-case hexadecimal digits of a word, most significant first. *)
Definition hex8 (x : Z) : string :=
  let d (i : Z) := hex_digit ((x / 16 ^ i) mod 16) in
  String (d 7) (String (d 6) (String (d 5) (String (d 4)
    (String (d 3) (String (d 2) (String (d 1) (String (d 0) EmptyString))))))).

(** [h = SHA1.new(); h.update(msg); h.hexdigest()]. *)
Definition hexdigest (msg : list Z) : string :=
  let '(State a b c d e) := digest_state msg in
  hex8 a +:+ hex8 b +:+ hex8 c +:+ hex8 d +:+ hex8 e.

End SHA1.

(** ** Collaborators: file names, the build, the compilation unit *)

(** [crytic_compile.utils.naming.Filename]. *)
Module Filename.
Record t : Type := Make
  { absolute : string; used : string; relative : string; short : string }.
End Filename.

(** The part of [CryticCompile] the source mapping calls.
    [get_line_from_offset] answers [None] where the Python method raises
    [KeyError]: the offset is not in the index built for the file. *)
Module CryticCompile.
Record t : Type := Make
  { get_line_from_offset : Filename.t -> Z -> option (Z * Z);
    filename_lookup : string -> Filename.t;
    is_dependency : string -> bool }.
End CryticCompile.

Module SlitherCore.
Record t : Type := Make
  { crytic_compile : option CryticCompile.t;
    source_code : gmap string (list Z);
    line_prefix : string }.
End SlitherCore.

Module SlitherCompilationUnit.
Record t : Type := Make
  { core : SlitherCore.t;
    source_units : gmap Z string }.
End SlitherCompilationUnit.

(** ** Python values, for [__eq__] against an arbitrary object *)

#[local] Set Warnings "-register-all".

Inductive pyval : Type :=
| PyInt (z : Z)
| PyBool (b : bool)
| PyStr (s : string)
| PyNone
| PyNotImplemented
| PyList (l : list pyval)
| PyObj (attrs : list (string * pyval)).

Fixpoint assoc_lookup (name : string) (attrs : list (string * pyval)) : option pyval :=
  match attrs with
  | [] => None
  | (k, v) :: rest => if String.eqb k name then Some v else assoc_lookup name rest
  end.

(** [v.name] for the attribute names [__eq__] reads: an object answers from
    its attributes, numbers, strings, lists, [None] and [NotImplemented] have
    none of them. *)
Definition getattr (v : pyval) (name : string) : result pyval :=
  match v with
  | PyObj attrs =>
      match assoc_lookup name attrs with
      | Some x => Ok x
      | None => Raise AttributeError
      end
  | _ => Raise AttributeError
  end.

(** [z == v], [s == v] and [b == v] for an integer, a string and a boolean on
    the left ([True == 1] holds in Python). *)
Definition int_eq (z : Z) (v : pyval) : bool :=
  match v with
  | PyInt z' => z =? z'
  | PyBool b => z =? Z.b2z b
  | _ => false
  end.

Definition str_eq (s : string) (v : pyval) : bool :=
  match v with
  | PyStr s' => String.eqb s s'
  | _ => false
  end.

Definition bool_eq (b : bool) (v : pyval) : bool :=
  match v with
  | PyBool b' => Bool.eqb b b'
  | PyInt z => Z.b2z b =? z
  | _ => false
  end.

(** ** [class Source] *)

Module Source.

Record t : Type := Make
  { start : Z;
    length : Z;
    filename : Filename.t;
    is_dependency : bool;
    lines : list Z;
    starting_column : Z;
    ending_column : Z;
    end_ : Z;
    compilation_unit : option SlitherCompilationUnit.t }.

Definition __init__ (compilation_unit : option SlitherCompilationUnit.t) : t :=
  {| start := 0;
     length := 0;
     filename := Filename.Make "" "" "" "";
     is_dependency := false;
     lines := [];
     starting_column := 0;
     ending_column := 0;
     end_ := 0;
     compilation_unit := compilation_unit |}.

(** The text of the span: the file is encoded, the bytes from [start] to
    [end] are taken, and decoded. *)
Definition content (self : t) : result (list Z) :=
  match compilation_unit self with
  | None => Raise AssertionError
  | Some cu =>
      match SlitherCore.source_code (SlitherCompilationUnit.core cu)
              !! Filename.absolute (filename self) with
      | None => Raise KeyError
      | Some text =>
          bytes ← utf8_encode text;
          utf8_decode (py_slice bytes (start self) (end_ self))
      end
  end.

Definition content_hash (self : t) : result string :=
  c ← content self;
  bytes ← utf8_encode c;
  Ok (SHA1.hexdigest bytes).

(** The tuple handed to [hash], and [__hash__] for a given [hash] of such
    tuples. *)
Definition hash_key (self : t) : Z * Z * string * Z :=
  (start self, length self, Filename.relative (filename self), end_ self).

Definition __hash__ (hash : Z * Z * string * Z -> Z) (self : t) : Z :=
  hash (hash_key self).

(** The conjunction is evaluated left to right and stops at the first
    comparison that is false; an attribute that [other] lacks is only
    noticed when its comparison is reached. *)
Definition __eq__ (self : t) (other : pyval) : result pyval :=
  let body : result pyval :=
    o_start ← getattr other "start";
    if negb (int_eq (start self) o_start) then Ok (PyBool false) else
    o_filename ← getattr other "filename";
    o_relative ← getattr o_filename "relative";
    if negb (str_eq (Filename.relative (filename self)) o_relative)
    then Ok (PyBool false) else
    o_dep ← getattr other "is_dependency";
    if negb (bool_eq (is_dependency self) o_dep) then Ok (PyBool false) else
    o_end ← getattr other "end";
    Ok (PyBool (int_eq (end_ self) o_end)) in
  match body with
  | Raise AttributeError => Ok PyNotImplemented
  | r => r
  end.

(** A span seen as a Python object: its instance attributes. *)
Definition to_object (self : t) : pyval :=
  PyObj
    [ ("start", PyInt (start self));
      ("length", PyInt (length self));
      ("filename",
        PyObj [ ("absolute", PyStr (Filename.absolute (filename self)));
                ("used", PyStr (Filename.used (filename self)));
                ("relative", PyStr (Filename.relative (filename self)));
                ("short", PyStr (Filename.short (filename self))) ]);
      ("is_dependency", PyBool (is_dependency self));
      ("lines", PyList (map PyInt (lines self)));
      ("starting_column", PyInt (starting_column self));
      ("ending_column", PyInt (ending_column self));
      ("end", PyInt (end_ self)) ].

(** [to_json]: the dictionary, as its items in insertion order. *)
Definition to_json (self : t) : list (string * pyval) :=
  [ ("start", PyInt (start self));
    ("length", PyInt (length self));
    ("filename_relative", PyStr (Filename.relative (filename self)));
    ("filename_absolute", PyStr (Filename.absolute (filename self)));
    ("filename_short", PyStr (Filename.short (filename self)));
    ("is_dependency", PyBool (is_dependency self));
    ("lines", PyList (map PyInt (lines self)));
    ("starting_column", PyInt (starting_column self));
    ("ending_column", PyInt (ending_column self)) ].

(** [x if x else ""] for a string. *)
Definition or_empty (x : string) : string :=
  if String.eqb x EmptyString then EmptyString else x.

(** The prefix is read from the compilation unit before the lines are
    looked at: without a compilation unit the attribute access fails. *)
Definition _get_lines_str (self : t) (line_descr : string) : result string :=
  match compilation_unit self with
  | None => Raise AttributeError
  | Some cu =>
      let line_prefix := SlitherCore.line_prefix (SlitherCompilationUnit.core cu) in
      match lines self with
      | [] => Ok EmptyString
      | [first] =>
          a ← py_str first;
          Ok (line_prefix +:+ line_descr +:+ a)
      | first :: rest =>
          a ← py_str first;
          b ← py_str (List.last rest first);
          Ok (line_prefix +:+ line_descr +:+ a +:+ "-" +:+ line_descr +:+ b)
      end
  end.

Definition to_markdown (self : t) (markdown_root : string) : result string :=
  lines ← _get_lines_str self "L";
  let filename_relative := or_empty (Filename.relative (filename self)) in
  Ok (markdown_root +:+ filename_relative +:+ lines).

Definition to_detailed_str (self : t) : result string :=
  lines ← _get_lines_str self "";
  let filename_short := or_empty (Filename.short (filename self)) in
  a ← py_str (starting_column self);
  b ← py_str (ending_column self);
  Ok (filename_short +:+ lines +:+ " (" +:+ a +:+ " - " +:+ b +:+ ")").

Definition __str__ (self : t) : result string :=
  lines ← _get_lines_str self "";
  let filename_short := or_empty (Filename.short (filename self)) in
  Ok (filename_short +:+ lines).

(** [self.compilation_unit = cu] on a span. *)
Definition set_compilation_unit (self : t)
    (cu : option SlitherCompilationUnit.t) : t :=
  {| start := start self;
     length := length self;
     filename := filename self;
     is_dependency := is_dependency self;
     lines := lines self;
     starting_column := starting_column self;
     ending_column := ending_column self;
     end_ := end_ self;
     compilation_unit := cu |}.

End Source.

(** ** [_compute_line] *)

Definition newline : string := String (ascii_of_nat 10) EmptyString.

(** The message of the [SlitherException] raised for a stale build. *)
Definition stale_msg (short : string) : string :=
  "The source code appears to be out of sync with the build artifacts on disk."
  +:+ newline
  +:+ "        This discrepancy can occur after recent modifications to "
  +:+ short +:+ ". To resolve this"
  +:+ newline
  +:+ "        issue, consider executing the clean command of the build system (e.g. forge clean)."
  +:+ newline
  +:+ "        ".

(** The first lookup is outside the [try]; only the [KeyError] of the second
    one is turned into a [SlitherException]. *)
Definition _compute_line (compilation_unit : SlitherCompilationUnit.t)
    (filename : Filename.t) (start length : Z) : result (list Z * Z * Z) :=
  match SlitherCore.crytic_compile (SlitherCompilationUnit.core compilation_unit) with
  | None => Raise AttributeError
  | Some cc =>
      match CryticCompile.get_line_from_offset cc filename start with
      | None => Raise KeyError
      | Some (start_line, starting_column) =>
          match CryticCompile.get_line_from_offset cc filename (start + length) with
          | None => Raise (SlitherException (stale_msg (Filename.short filename)))
          | Some (end_line, ending_column) =>
              Ok (py_range start_line (end_line + 1), starting_column, ending_column)
          end
      end
  end.

(** ** [_convert_source_mapping] *)

Definition _convert_source_mapping (offset : string)
    (compilation_unit : SlitherCompilationUnit.t) : result Source.t :=
  let sourceUnits := SlitherCompilationUnit.source_units compilation_unit in
  match re_findall offset with
  | [(s, l, f)] =>
      s ← py_int s;
      l ← py_int l;
      f ← py_int f;
      match sourceUnits !! f with
      | None =>
          Ok {| Source.start := s;
                Source.length := l;
                Source.filename := Filename.Make "" "" "" "";
                Source.is_dependency := false;
                Source.lines := [];
                Source.starting_column := 0;
                Source.ending_column := 0;
                Source.end_ := 0;
                Source.compilation_unit := Some compilation_unit |}
      | Some filename_used =>
          match SlitherCore.crytic_compile
                  (SlitherCompilationUnit.core compilation_unit) with
          | None => Raise AssertionError
          | Some cc =>
              let filename := CryticCompile.filename_lookup cc filename_used in
              let is_dependency :=
                CryticCompile.is_dependency cc (Filename.absolute filename) in
              '(lines, starting_column, ending_column) ←
                _compute_line compilation_unit filename s l;
              Ok {| Source.start := s;
                    Source.length := l;
                    Source.filename := filename;
                    Source.is_dependency := is_dependency;
                    Source.lines := lines;
                    Source.starting_column := starting_column;
                    Source.ending_column := ending_column;
                    Source.end_ := s + l;
                    Source.compilation_unit := Some compilation_unit |}
          end
      end
  | _ => Ok (Source.__init__ (Some compilation_unit))
  end.

(** ** [class SourceMapping]

    The spans are objects: an entity holds references to them, and
    [set_offset] writes into the span it is given.  The store of spans is a
    list, a reference is a position in it, and a new span goes at the end. *)

Module SourceMapping.

Record t : Type := Make
  { source_mapping : option nat;
    references : list nat;
    _pattern : option string;
    name : option string }.

(** [__init__]; [name] is the attribute a subclass may define. *)
Definition __init__ (name : option string) : t :=
  {| source_mapping := None; references := []; _pattern := None; name := name |}.

(** The argument is a span, by reference, or a raw encoding.  A span is
    kept as it is and shared; an encoding is decoded into a new span.  In both
    cases the compilation unit of the span is then overwritten. *)
Definition set_offset (self : t) (offset : nat + string)
    (compilation_unit : option SlitherCompilationUnit.t) (store : list Source.t)
    : result (t * list Source.t) :=
  match compilation_unit with
  | None => Raise AssertionError
  | Some cu =>
      match offset with
      | inl ref =>
          let self' :=
            {| source_mapping := Some ref; references := references self;
               _pattern := _pattern self; name := name self |} in
          match store !! ref with
          | Some span =>
              Ok (self', <[ref := Source.set_compilation_unit span (Some cu)]> store)
          | None => Ok (self', store)
          end
      | inr raw =>
          span ← _convert_source_mapping raw cu;
          let ref := List.length store in
          Ok ({| source_mapping := Some ref; references := references self;
                 _pattern := _pattern self; name := name self |},
              store ++ [Source.set_compilation_unit span (Some cu)])
      end
  end.

(** Without a compilation unit the decoder fails on its first attribute
    access. *)
Definition add_reference_from_raw_source (self : t) (offset : string)
    (compilation_unit : option SlitherCompilationUnit.t) (store : list Source.t)
    : result (t * list Source.t) :=
  match compilation_unit with
  | None => Raise AttributeError
  | Some cu =>
      s ← _convert_source_mapping offset cu;
      Ok ({| source_mapping := source_mapping self;
             references := references self ++ [List.length store];
             _pattern := _pattern self; name := name self |},
          store ++ [s])
  end.

Definition pattern (self : t) : result string :=
  match _pattern self with
  | None =>
      match name self with
      | Some n => Ok (" " +:+ n)
      | None => Raise AttributeError
      end
  | Some p => Ok p
  end.

End SourceMapping.

(** ** Vocabulary of the statements *)

(** The file-index group: an optional minus sign, then digits. *)
Definition file_group (sign : bool) (g3 : string) : string :=
  if sign then String minus g3 else g3.

(** The encoding [start:length:file] built from its three components. *)
Definition encoding (ds dl fs : string) : string :=
  ds +:+ String colon (dl +:+ String colon fs).

(** A component that denotes a number: at least one digit, only digits. *)
Definition is_number (d : string) : bool :=
  all_digits d && negb (String.eqb d EmptyString).

(** A component that [int] converts: a number of at most
    [int_max_str_digits] digits. *)
Definition is_decimal (d : string) : bool :=
  is_number d && within_digit_limit d.

(** [n] times the character [c]. *)
Fixpoint repeat_char (c : ascii) (n : nat) : string :=
  match n with
  | O => EmptyString
  | S k => String c (repeat_char c k)
  end.

(** [d], written after [n] zeros: the same number with more digits. *)
Definition zero_padded (n : nat) (d : string) : string :=
  repeat_char "0" n +:+ d.

(** Digits that [int] refuses: none at all, or more than the limit. *)
Definition rejected_digits (d : string) : bool :=
  match d with
  | EmptyString => true
  | _ => negb (within_digit_limit d)
  end.

(** The digits of a captured group: the group without its minus sign. *)
Definition group_digits (g : string) : string :=
  match g with
  | String c t => if Ascii.eqb c minus then t else g
  | EmptyString => EmptyString
  end.

Definition signed_value (sign : bool) (g : string) : Z :=
  if sign then - digits_value 0 g else digits_value 0 g.

(** The anchored grammar of the specification: the pattern matches at the
    first character and the match ends with the string. *)
Definition anchored_grammar (s : string) : bool :=
  match match_here s with
  | Some (_, EmptyString) => true
  | _ => false
  end.

Fixpoint count_colons (s : string) : nat :=
  match s with
  | EmptyString => 0%nat
  | String c t => ((if Ascii.eqb c colon then 1 else 0) + count_colons t)%nat
  end.

(** The number of bytes of a character in UTF-8, and of a text. *)
Definition utf8_width (c : Z) : Z :=
  if c <? 0x80 then 1
  else if c <? 0x800 then 2
  else if c <? 0x10000 then 3
  else 4.

Definition utf8_length (s : list Z) : Z :=
  fold_right (fun c n => utf8_width c + n) 0 s.

(** The contract of the line index: a later offset is not on an earlier line. *)
Definition line_index_monotone (cc : CryticCompile.t) : Prop :=
  forall file a b la ca lb cb,
    a <= b ->
    CryticCompile.get_line_from_offset cc file a = Some (la, ca) ->
    CryticCompile.get_line_from_offset cc file b = Some (lb, cb) ->
    la <= lb.

Definition contiguous (l : list Z) : Prop :=
  forall (i : nat) (x y : Z), l !! i = Some x -> l !! S i = Some y -> y = x + 1.

Definition strictly_ascending (l : list Z) : Prop :=
  forall (i j : nat) (x y : Z),
    (i < j)%nat -> l !! i = Some x -> l !! j = Some y -> x < y.

(** The span of the branch for a file index that is not in the table. *)
Definition unresolved (cu : SlitherCompilationUnit.t) (s l : Z) : Source.t :=
  {| Source.start := s;
     Source.length := l;
     Source.filename := Filename.Make "" "" "" "";
     Source.is_dependency := false;
     Source.lines := [];
     Source.starting_column := 0;
     Source.ending_column := 0;
     Source.end_ := 0;
     Source.compilation_unit := Some cu |}.

(** The invariant of the specification on a span. *)
Definition end_invariant (a : Source.t) : Prop :=
  Source.end_ a = Source.start a + Source.length a.

Definition is_ascii (c : Z) : bool := (0 <=? c) && (c <? 0x80).

Fixpoint all_hex (s : string) : bool :=
  match s with
  | EmptyString => true
  | String c t => SHA1.is_hex_digit c && all_hex t
  end.

(** A 32-bit word, and a digest state made of five of them. *)
Definition word32 (x : Z) : Prop := 0 <= x < 2 ^ 32.

Definition state_words (st : SHA1.state) : Prop :=
  word32 (SHA1.h0 st) /\ word32 (SHA1.h1 st) /\ word32 (SHA1.h2 st)
  /\ word32 (SHA1.h3 st) /\ word32 (SHA1.h4 st).

(** [other] has no attribute [name]. *)
Definition lacks (other : pyval) (name : string) : Prop :=
  getattr other name = Raise AttributeError.

(** ** A small build, for concrete runs *)

(** Modelled from the spec: the line index provider, which is part of
    crytic_compile ("given a file and a byte offset, returns the 1-based line
    number and column at that offset; raises a lookup failure if the offset
    falls outside the known file extent").  [line_col_at] walks the bytes of
    the file and counts the line feeds. *)
Fixpoint line_col_at (bytes : list Z) (line col : Z) (off : nat) {struct off}
    : option (Z * Z) :=
  match off with
  | O => Some (line, col)
  | S k =>
      match bytes with
      | [] => None
      | b :: r =>
          if b =? 10 then line_col_at r (line + 1) 1 k
          else line_col_at r line (col + 1) k
      end
  end.

(** Modelled from the spec: the line index provider of a build whose files
    are [sources]; an offset before the file or after its last byte is not
    found. *)
Definition text_line_index (sources : gmap string (list Z))
    (file : Filename.t) (off : Z) : option (Z * Z) :=
  if off <? 0 then None else
  match sources !! Filename.absolute file with
  | None => None
  | Some text =>
      match utf8_encode text with
      | Ok bytes => line_col_at bytes 1 1 (Z.to_nat off)
      | Raise _ => None
      end
  end.

(** The code points of a string of ASCII characters. *)
Fixpoint codepoints (s : string) : list Z :=
  match s with
  | EmptyString => []
  | String c t => Z.of_nat (nat_of_ascii c) :: codepoints t
  end.

(** A comment with a two-byte and a three-byte character, then a contract. *)
Definition demo_text : list Z :=
  codepoints "// " ++ [0xE9; 0x20AC; 10] ++ codepoints "contract C {}" ++ [10].

Definition demo_sources : gmap string (list Z) := {[ "/p/a.sol" := demo_text ]}.

Definition demo_cc : CryticCompile.t :=
  {| CryticCompile.get_line_from_offset := text_line_index demo_sources;
     CryticCompile.filename_lookup :=
       fun used => Filename.Make ("/p/" +:+ used) used used used;
     CryticCompile.is_dependency := fun _ => false |}.

Definition demo_cu : SlitherCompilationUnit.t :=
  {| SlitherCompilationUnit.core :=
       {| SlitherCore.crytic_compile := Some demo_cc;
          SlitherCore.source_code := demo_sources;
          SlitherCore.line_prefix := "#" |};
     SlitherCompilationUnit.source_units := {[ 0 := "a.sol" ]} |}.

(** Another compilation unit: no build, no source unit, another prefix. *)
Definition demo_cu2 : SlitherCompilationUnit.t :=
  {| SlitherCompilationUnit.core :=
       {| SlitherCore.crytic_compile := None;
          SlitherCore.source_code := ∅;
          SlitherCore.line_prefix := ":" |};
     SlitherCompilationUnit.source_units := ∅ |}.

Definition demo_file : Filename.t := Filename.Make "/p/a.sol" "a.sol" "a.sol" "a.sol".

(** The span of the word "contract": bytes 9 to 17 of the file. *)
Definition demo_span : Source.t :=
  {| Source.start := 9; Source.length := 8; Source.filename := demo_file;
     Source.is_dependency := false; Source.lines := [2];
     Source.starting_column := 1; Source.ending_column := 9;
     Source.end_ := 17; Source.compilation_unit := Some demo_cu |}.

(** ** Vocabulary of the further properties *)

(** A captured group triple: digits, digits, and digits after an optional
    minus sign. *)
Definition group_shape (g : string * string * string) : Prop :=
  let '(g1, g2, g3) := g in
  all_digits g1 = true /\ all_digits g2 = true /\
  exists sign d, all_digits d = true /\ g3 = file_group sign d.

(** Text in which the pattern cannot start: no digit and no colon. *)
Fixpoint no_digit_no_colon (s : string) : bool :=
  match s with
  | EmptyString => true
  | String c t => negb (is_digit c) && negb (Ascii.eqb c colon) && no_digit_no_colon t
  end.

Definition starts_with_digit (s : string) : bool :=
  match s with
  | EmptyString => false
  | String c _ => is_digit c
  end.

(** Two spans compare equal. *)
Definition span_eq (a b : Source.t) : Prop :=
  Source.__eq__ a (Source.to_object b) = Ok (PyBool true).

(** [add_reference_from_raw_source] called for each encoding in turn. *)
Fixpoint add_references (self : SourceMapping.t) (offsets : list string)
    (cu : option SlitherCompilationUnit.t) (store : list Source.t)
    : result (SourceMapping.t * list Source.t) :=
  match offsets with
  | [] => Ok (self, store)
  | offset :: rest =>
      '(self', store') ←
        SourceMapping.add_reference_from_raw_source self offset cu store;
      add_references self' rest cu store'
  end.

(** A span of the file of the small build, given by its start and length. *)
Definition demo_span_at (s l : Z) : Source.t :=
  {| Source.start := s; Source.length := l; Source.filename := demo_file;
     Source.is_dependency := false; Source.lines := [];
     Source.starting_column := 0; Source.ending_column := 0;
     Source.end_ := s + l; Source.compilation_unit := Some demo_cu |}.

(** * Properties *)

(** ** The pattern and [re.findall] *)

Lemma re_findall_step (s : string) :
  re_findall s =
  match match_here s with
  | Some (g, rest) => g :: re_findall rest
  | None => match s with EmptyString => [] | String _ t => re_findall t end
  end.
Proof.
  funelim (re_findall s); rewrite ?Hm; reflexivity.
Qed.

Lemma string_app_nil (b : string) : EmptyString +:+ b = b.
Proof. reflexivity. Qed.

Lemma string_app_cons (c : ascii) (a b : string) :
  String c a +:+ b = String c (a +:+ b).
Proof. reflexivity. Qed.

Ltac simpl_app := rewrite ?string_app_cons, ?string_app_nil.

Lemma span_digits_app (d r : string) :
  all_digits d = true ->
  match r with EmptyString => True | String c _ => is_digit c = false end ->
  span_digits (d +:+ r) = (d, r).
Proof.
  intros Hd Hr. induction d as [|c d IH]; simpl_app; simpl in *.
  - destruct r as [|c r]; [reflexivity|]. simpl. now rewrite Hr.
  - apply andb_prop in Hd as [Hc Hd]. rewrite Hc, (IH Hd). reflexivity.
Qed.

Lemma span_digits_all (d : string) :
  all_digits d = true -> span_digits d = (d, EmptyString).
Proof.
  intros Hd. induction d as [|c d IH]; simpl in *; [reflexivity|].
  apply andb_prop in Hd as [Hc Hd]. rewrite Hc, (IH Hd). reflexivity.
Qed.

Lemma span_digits_split (s d r : string) :
  span_digits s = (d, r) -> s = d +:+ r.
Proof.
  revert d r. induction s as [|c s IH]; intros d r; simpl.
  - now intros [= <- <-].
  - destruct (is_digit c).
    + destruct (span_digits s) as [d' r'] eqn:E. intros [= <- <-].
      simpl_app. f_equal. now apply IH.
    + now intros [= <- <-].
Qed.

Lemma match_here_encoding (g1 g2 g3 : string) (sign : bool) :
  all_digits g1 = true -> all_digits g2 = true -> all_digits g3 = true ->
  match_here (encoding g1 g2 (file_group sign g3))
  = Some ((g1, g2, file_group sign g3), EmptyString).
Proof.
  intros H1 H2 H3. unfold match_here, encoding.
  rewrite (span_digits_app g1) by (auto; reflexivity). simpl.
  rewrite (span_digits_app g2) by (auto; reflexivity). simpl.
  destruct sign; simpl.
  - now rewrite (span_digits_all g3).
  - destruct g3 as [|c g3]; [reflexivity|].
    assert (Hc : is_digit c = true) by (simpl in H3; now apply andb_prop in H3).
    destruct (Ascii.eqb_spec c minus) as [->|_]; [discriminate|].
    now rewrite (span_digits_all (String c g3)).
Qed.

(** A string of the shape digits, colon, digits, colon, optional minus,
    digits holds exactly one match, with these groups. *)
Lemma re_findall_encoding (g1 g2 g3 : string) (sign : bool) :
  all_digits g1 = true -> all_digits g2 = true -> all_digits g3 = true ->
  re_findall (encoding g1 g2 (file_group sign g3)) = [(g1, g2, file_group sign g3)].
Proof.
  intros H1 H2 H3. rewrite re_findall_step, match_here_encoding by assumption.
  now rewrite re_findall_step.
Qed.

Lemma count_colons_app (a b : string) :
  count_colons (a +:+ b) = (count_colons a + count_colons b)%nat.
Proof.
  induction a as [|c a IH]; simpl_app; simpl; [reflexivity|]. rewrite IH. lia.
Qed.

Lemma match_here_colons (s : string) g rest :
  match_here s = Some (g, rest) -> (2 <= count_colons s)%nat.
Proof.
  unfold match_here.
  destruct (span_digits s) as [g1 r1] eqn:E1. apply span_digits_split in E1.
  destruct r1 as [|c1 r2]; [discriminate|].
  destruct (Ascii.eqb c1 colon) eqn:Hc1; [|discriminate].
  destruct (span_digits r2) as [g2 r3] eqn:E2. apply span_digits_split in E2.
  destruct r3 as [|c2 r4]; [discriminate|].
  destruct (Ascii.eqb c2 colon) eqn:Hc2; [|discriminate].
  intros _. subst s r2. rewrite count_colons_app. simpl. rewrite Hc1.
  rewrite count_colons_app. simpl. rewrite Hc2. lia.
Qed.

(** The scan on a few strings: text around a triple is skipped, a second
    triple is a second match, an empty group is captured as such. *)
Lemma re_findall_examples :
  re_findall "10:5:999" = [("10", "5", "999")]
  /\ re_findall "a12:3:4b" = [("12", "3", "4")]
  /\ re_findall "12a3:4:5" = [("3", "4", "5")]
  /\ re_findall "-1:2:3" = [("1", "2", "3")]
  /\ re_findall "1:2:3:4" = [("1", "2", "3")]
  /\ re_findall "1:2:3:4:5" = [("1", "2", "3"); ("", "4", "5")]
  /\ re_findall "1:2:-3" = [("1", "2", "-3")]
  /\ re_findall "1:2:--3" = [("1", "2", "-")]
  /\ re_findall "1:2:" = [("1", "2", "")]
  /\ re_findall "::" = [("", "", "")]
  /\ re_findall "" = [].
Proof. repeat split; reflexivity. Qed.

(** Fewer than two colons: the pattern occurs nowhere. *)
Lemma re_findall_few_colons (s : string) :
  (count_colons s < 2)%nat -> re_findall s = [].
Proof.
  induction s as [|c s IH]; intros Hc; rewrite re_findall_step.
  - reflexivity.
  - destruct (match_here (String c s)) as [[g rest]|] eqn:Hm.
    + apply match_here_colons in Hm. lia.
    + apply IH. simpl in Hc. lia.
Qed.

(** ** [int] on the captured groups *)

Lemma digits_value_lower (d : string) (acc : Z) :
  all_digits d = true -> 0 <= acc -> 0 <= digits_value acc d.
Proof.
  revert acc. induction d as [|c d IH]; intros acc Hd Hacc; simpl in *; [lia|].
  apply andb_prop in Hd as [Hc Hd]. apply IH; [assumption|].
  unfold is_digit, digit_value in *. lia.
Qed.

Lemma is_decimal_parts (d : string) :
  is_decimal d = true ->
  all_digits d = true /\ d <> EmptyString /\ within_digit_limit d = true.
Proof.
  unfold is_decimal, is_number.
  intros [[Hd Hne]%andb_prop Hlim]%andb_prop. repeat split; try assumption.
  intros ->. discriminate Hne.
Qed.

Lemma py_int_number (d : string) :
  is_decimal d = true -> py_int d = Ok (digits_value 0 d) /\ 0 <= digits_value 0 d.
Proof.
  intros (Hd & Hne & Hlim)%is_decimal_parts. split.
  - destruct d as [|c d]; [contradiction|].
    assert (Hc : is_digit c = true) by (simpl in Hd; now apply andb_prop in Hd).
    unfold py_int.
    destruct (Ascii.eqb_spec c minus) as [->|_]; [discriminate|].
    destruct (Ascii.eqb_spec c plus) as [->|_]; [discriminate|].
    now rewrite Hd, Hlim.
  - apply digits_value_lower; [assumption|lia].
Qed.

Lemma py_int_file_group (sign : bool) (g3 : string) :
  is_decimal g3 = true ->
  py_int (file_group sign g3)
  = Ok (if sign then - digits_value 0 g3 else digits_value 0 g3).
Proof.
  intros Hn. destruct sign; unfold file_group.
  - apply is_decimal_parts in Hn as (Hd & Hne & Hlim).
    destruct g3 as [|c g3]; [contradiction|].
    unfold py_int. change (Ascii.eqb minus minus) with true. cbv iota.
    now rewrite Hd, Hlim.
  - now apply py_int_number.
Qed.

(** [int] on a run of digits: [ValueError] for the empty run and for a run
    longer than the limit, otherwise the value, which is not negative. *)
Lemma py_int_digits (d : string) :
  all_digits d = true ->
  (py_int d = Raise ValueError
   /\ (d = EmptyString \/ within_digit_limit d = false))
  \/ (d <> EmptyString /\ within_digit_limit d = true
      /\ py_int d = Ok (digits_value 0 d) /\ 0 <= digits_value 0 d).
Proof.
  intros Hd. destruct d as [|c d]; [left; split; [reflexivity|now left]|].
  destruct (within_digit_limit (String c d)) eqn:Hlim.
  - right. split; [discriminate|]. split; [reflexivity|].
    apply py_int_number. unfold is_decimal, is_number. now rewrite Hd, Hlim.
  - left. split; [|now right].
    assert (Hc : is_digit c = true) by (simpl in Hd; now apply andb_prop in Hd).
    unfold py_int.
    destruct (Ascii.eqb_spec c minus) as [->|_]; [discriminate|].
    destruct (Ascii.eqb_spec c plus) as [->|_]; [discriminate|].
    now rewrite Hd, Hlim.
Qed.

Lemma py_int_file_group_cases (sign : bool) (d : string) :
  all_digits d = true ->
  (py_int (file_group sign d) = Raise ValueError
   /\ (d = EmptyString \/ within_digit_limit d = false))
  \/ (d <> EmptyString /\ within_digit_limit d = true
      /\ py_int (file_group sign d) = Ok (signed_value sign d)).
Proof.
  intros Hd. destruct d as [|c d].
  - left. split; [now destruct sign|now left].
  - destruct (within_digit_limit (String c d)) eqn:Hlim.
    + right. split; [discriminate|]. split; [reflexivity|].
      apply py_int_file_group. unfold is_decimal, is_number. now rewrite Hd, Hlim.
    + left. split; [|now right]. destruct sign; unfold file_group.
      * unfold py_int. change (Ascii.eqb minus minus) with true. cbv iota.
        now rewrite Hd, Hlim.
      * now destruct (py_int_digits (String c d) Hd)
          as [[-> _]|(_ & Hl & _)]; [|congruence].
Qed.

Lemma py_int_empty : py_int EmptyString = Raise ValueError.
Proof. reflexivity. Qed.

Lemma py_int_lone_minus : py_int (String minus EmptyString) = Raise ValueError.
Proof. reflexivity. Qed.

(** ** [range] *)

Lemma py_range_length (a b : Z) : List.length (py_range a b) = Z.to_nat (b - a).
Proof. unfold py_range. now rewrite length_map, length_seq. Qed.

Lemma py_range_lookup (a b : Z) (i : nat) (x : Z) :
  py_range a b !! i = Some x <-> (Z.of_nat i < b - a /\ x = a + Z.of_nat i).
Proof.
  unfold py_range. rewrite list_lookup_fmap. split.
  - destruct (seq 0 (Z.to_nat (b - a)) !! i) as [k|] eqn:E; [|discriminate].
    apply lookup_seq in E as [-> Hk]. simpl. intros [= <-]. lia.
  - intros [Hi ->].
    assert (E : seq 0 (Z.to_nat (b - a)) !! i = Some i)
      by (apply lookup_seq; lia).
    now rewrite E.
Qed.

Lemma py_range_contiguous (a b : Z) : contiguous (py_range a b).
Proof.
  intros i x y [_ ->]%py_range_lookup [_ ->]%py_range_lookup. lia.
Qed.

Lemma py_range_ascending (a b : Z) : strictly_ascending (py_range a b).
Proof.
  intros i j x y Hij [_ ->]%py_range_lookup [_ ->]%py_range_lookup. lia.
Qed.

Lemma py_range_head (a b : Z) : a < b -> head (py_range a b) = Some a.
Proof.
  intros Hab. rewrite head_lookup. apply py_range_lookup. lia.
Qed.

Lemma py_range_last (a b : Z) : a < b -> last (py_range a b) = Some (b - 1).
Proof.
  intros Hab. rewrite last_lookup, py_range_length.
  apply py_range_lookup. lia.
Qed.

(** ** Appending strings *)

Lemma string_length_app (a b : string) :
  String.length (a +:+ b) = (String.length a + String.length b)%nat.
Proof. induction a as [|c a IH]; simpl_app; simpl; [reflexivity|now rewrite IH]. Qed.

Lemma digits_value_app (a b : string) (acc : Z) :
  digits_value acc (a +:+ b) = digits_value (digits_value acc a) b.
Proof.
  revert acc. induction a as [|c a IH]; intros acc; simpl_app; simpl;
    [reflexivity|apply IH].
Qed.

Lemma all_digits_app (a b : string) :
  all_digits (a +:+ b) = all_digits a && all_digits b.
Proof.
  induction a as [|c a IH]; simpl_app; simpl; [reflexivity|].
  now rewrite IH, andb_assoc.
Qed.

(** ** Components that [int] refuses *)

Lemma rejected_digits_spec (d : string) :
  rejected_digits d = true <-> d = EmptyString \/ within_digit_limit d = false.
Proof.
  destruct d as [|c d]; simpl.
  - split; auto.
  - rewrite negb_true_iff. split; [auto|]. now intros [?|?].
Qed.

Lemma group_digits_file_group (sign : bool) (d : string) :
  all_digits d = true -> group_digits (file_group sign d) = d.
Proof.
  intros Hd. destruct sign; unfold file_group, group_digits.
  - reflexivity.
  - destruct d as [|c d]; [reflexivity|].
    assert (Hc : is_digit c = true) by (simpl in Hd; now apply andb_prop in Hd).
    now destruct (Ascii.eqb_spec c minus) as [->|_].
Qed.

Lemma group_digits_digits (d : string) :
  all_digits d = true -> group_digits d = d.
Proof. apply (group_digits_file_group false). Qed.

(** A component that [int] refuses, for want of digits or for too many of
    them, makes the decoder raise [ValueError]. *)
Lemma rejected_group_value_error (cu : SlitherCompilationUnit.t)
    (g1 g2 g3 : string) (sign : bool) :
  all_digits g1 = true -> all_digits g2 = true -> all_digits g3 = true ->
  rejected_digits g1 = true \/ rejected_digits g2 = true
  \/ rejected_digits g3 = true ->
  _convert_source_mapping (encoding g1 g2 (file_group sign g3)) cu
  = Raise ValueError.
Proof.
  intros H1 H2 H3 Hrej. rewrite !rejected_digits_spec in Hrej.
  unfold _convert_source_mapping.
  rewrite re_findall_encoding by assumption.
  destruct (py_int_digits g1 H1) as [[-> _]|(N1 & L1 & -> & _)]; [reflexivity|].
  destruct (py_int_digits g2 H2) as [[-> _]|(N2 & L2 & -> & _)]; [reflexivity|].
  destruct (py_int_file_group_cases sign g3 H3) as [[-> _]|(N3 & L3 & _)];
    [reflexivity|].
  destruct Hrej as [[?|?] | [[?|?] | [?|?]]]; congruence.
Qed.

(** A number written after 4300 zeros has 4301 digits or more. *)
Lemma zero_padded_rejected (d : string) :
  all_digits d = true -> d <> EmptyString ->
  all_digits (zero_padded 4300 d) = true
  /\ is_number (zero_padded 4300 d) = true
  /\ rejected_digits (zero_padded 4300 d) = true
  /\ digits_value 0 (zero_padded 4300 d) = digits_value 0 d.
Proof.
  intros Hd Hne. unfold zero_padded.
  assert (Hz : all_digits (repeat_char "0" 4300) = true)
    by (vm_compute; reflexivity).
  assert (Hlen : String.length (repeat_char "0" 4300) = 4300%nat)
    by (vm_compute; reflexivity).
  assert (Hv : digits_value 0 (repeat_char "0" 4300) = 0)
    by (vm_compute; reflexivity).
  assert (Hall : all_digits (repeat_char "0" 4300 +:+ d) = true)
    by (now rewrite all_digits_app, Hz, Hd).
  assert (Hlong : (4300 < String.length (repeat_char "0" 4300 +:+ d))%nat).
  { rewrite string_length_app, Hlen. destruct d; [contradiction|simpl; lia]. }
  assert (Hnonempty : repeat_char "0" 4300 +:+ d <> EmptyString).
  { intros E. rewrite E in Hlong. simpl in Hlong. lia. }
  split; [|split; [|split]].
  - exact Hall.
  - unfold is_number. rewrite Hall. simpl.
    now destruct (String.eqb_spec (repeat_char "0" 4300 +:+ d) EmptyString).
  - apply rejected_digits_spec. right. unfold within_digit_limit, int_max_str_digits.
    apply Z.leb_gt. lia.
  - now rewrite digits_value_app, Hv.
Qed.

(** ** The decoder on a well-formed triple *)

Create HintDb ranges.
#[local] Hint Resolve py_range_contiguous py_range_ascending : ranges.

(** The message names the file it is given. *)
Lemma stale_msg_names_file (short : string) :
  exists before after, stale_msg short = before +:+ short +:+ after.
Proof.
  exists ("The source code appears to be out of sync with the build artifacts on disk."
          +:+ newline
          +:+ "        This discrepancy can occur after recent modifications to ").
  exists (". To resolve this"
          +:+ newline
          +:+ "        issue, consider executing the clean command of the build system (e.g. forge clean)."
          +:+ newline
          +:+ "        ").
  reflexivity.
Qed.

Section WellFormedTriple.

Context (cu : SlitherCompilationUnit.t) (ds dl g3 : string) (sign : bool).
Hypothesis Hs : is_decimal ds = true.
Hypothesis Hl : is_decimal dl = true.
Hypothesis Hf : is_decimal g3 = true.

Local Abbreviation raw := (encoding ds dl (file_group sign g3)).
Local Abbreviation vs := (digits_value 0 ds).
Local Abbreviation vl := (digits_value 0 dl).
Local Abbreviation vf := (signed_value sign g3).

(** The pattern matches once, the three conversions succeed, and what is
    left of the decoder is the choice on the table of source units. *)
Lemma convert_wellformed :
  _convert_source_mapping raw cu =
  match SlitherCompilationUnit.source_units cu !! vf with
  | None => Ok (unresolved cu vs vl)
  | Some filename_used =>
      match SlitherCore.crytic_compile (SlitherCompilationUnit.core cu) with
      | None => Raise AssertionError
      | Some cc =>
          let filename := CryticCompile.filename_lookup cc filename_used in
          '(lines, starting_column, ending_column) ←
            _compute_line cu filename vs vl;
          Ok {| Source.start := vs;
                Source.length := vl;
                Source.filename := filename;
                Source.is_dependency :=
                  CryticCompile.is_dependency cc (Filename.absolute filename);
                Source.lines := lines;
                Source.starting_column := starting_column;
                Source.ending_column := ending_column;
                Source.end_ := vs + vl;
                Source.compilation_unit := Some cu |}
      end
  end.
Proof.
  unfold _convert_source_mapping.
  destruct (is_decimal_parts ds Hs) as (Hs' & _ & _).
  destruct (is_decimal_parts dl Hl) as (Hl' & _ & _).
  destruct (is_decimal_parts g3 Hf) as (Hf' & _ & _).
  rewrite re_findall_encoding by assumption.
  destruct (py_int_number ds Hs) as [-> _].
  destruct (py_int_number dl Hl) as [-> _].
  rewrite (py_int_file_group sign g3 Hf). reflexivity.
Qed.

(** C5, amended. A well-formed triple, each of whose three numbers is
    written with at most 4300 digits (the limit of [int]), and whose file
    index is not in the table of source units decodes, without an exception,
    to a span that carries the start and the length of the triple, and keeps
    the defaults everywhere else: [end] zero, the empty file name, no lines,
    zero columns. *)
Theorem absent_index_span :
  SlitherCompilationUnit.source_units cu !! vf = None ->
  _convert_source_mapping raw cu =
  Ok {| Source.start := vs;
        Source.length := vl;
        Source.filename := Filename.Make "" "" "" "";
        Source.is_dependency := false;
        Source.lines := [];
        Source.starting_column := 0;
        Source.ending_column := 0;
        Source.end_ := 0;
        Source.compilation_unit := Some cu |}.
Proof.
  intros Habsent. rewrite convert_wellformed. now rewrite Habsent.
Qed.

Section KnownFile.

Context (cc : CryticCompile.t) (used : string).
Hypothesis Hused : SlitherCompilationUnit.source_units cu !! vf = Some used.
Hypothesis Hcc :
  SlitherCore.crytic_compile (SlitherCompilationUnit.core cu) = Some cc.

Local Abbreviation file := (CryticCompile.filename_lookup cc used).
Local Abbreviation line_at := (CryticCompile.get_line_from_offset cc file).

(** A start offset the line index does not know: the [KeyError] of the
    first lookup leaves the decoder as it is. *)
Lemma first_lookup_key_error :
  line_at vs = None -> _convert_source_mapping raw cu = Raise KeyError.
Proof.
  intros Hstart. rewrite convert_wellformed, Hused, Hcc.
  unfold _compute_line. now rewrite Hcc, Hstart.
Qed.

(** An end offset the line index does not know, the start being known: the
    [SlitherException] with the message for the short name of the file. *)
Lemma second_lookup_slither_exception (sl sc : Z) :
  line_at vs = Some (sl, sc) ->
  line_at (vs + vl) = None ->
  _convert_source_mapping raw cu
  = Raise (SlitherException (stale_msg (Filename.short file))).
Proof.
  intros Hstart Hend. rewrite convert_wellformed, Hused, Hcc.
  unfold _compute_line. now rewrite Hcc, Hstart, Hend.
Qed.

(** C3, amended. A well-formed triple, each of whose three numbers is
    written with at most 4300 digits (the limit of [int]), and whose file
    index is in the table, decoded against a build whose line index answers
    for both ends of the range, gives a span with [start = s], [length = l], [end = s + l], whose lines
    are not empty, begin with the line of offset [s], finish with the line
    of offset [s + l], grow by one at each step and are strictly ascending.
    The line index is taken with its contract: a later offset is not on an
    earlier line. *)
Theorem resolved_file_span (sl sc el ec : Z) :
  line_index_monotone cc ->
  line_at vs = Some (sl, sc) ->
  line_at (vs + vl) = Some (el, ec) ->
  exists span,
    _convert_source_mapping raw cu = Ok span
    /\ Source.start span = vs
    /\ Source.length span = vl
    /\ Source.end_ span = vs + vl
    /\ Source.lines span <> []
    /\ head (Source.lines span) = Some sl
    /\ last (Source.lines span) = Some el
    /\ contiguous (Source.lines span)
    /\ strictly_ascending (Source.lines span).
Proof.
  intros Hmono Hstart Hend.
  rewrite convert_wellformed, Hused, Hcc.
  unfold _compute_line. rewrite Hcc, Hstart, Hend.
  eexists; split; [reflexivity|]. simpl.
  assert (Hle : sl <= el).
  { destruct (py_int_number dl Hl) as [_ Hl0].
    apply (Hmono file vs (vs + vl) sl sc el ec);
      [lia | exact Hstart | exact Hend]. }
  repeat split; auto with ranges.
  - intros Hnil. apply (f_equal List.length) in Hnil.
    rewrite py_range_length in Hnil. simpl in Hnil. lia.
  - apply py_range_head. lia.
  - rewrite py_range_last by lia. f_equal. lia.
Qed.

End KnownFile.

End WellFormedTriple.

(** The example of the specification: "10:5:999" with index 999 absent. *)
Lemma absent_index_span_witness :
  SlitherCompilationUnit.source_units demo_cu !! 999 = None /\
  _convert_source_mapping "10:5:999" demo_cu = Ok (unresolved demo_cu 10 5).
Proof.
  split; [reflexivity|].
  apply (absent_index_span demo_cu "10" "5" "999" false); reflexivity.
Defined.

(** C5, as stated, fails: the start 10 written after 4300 zeros is a run of
    digits like any other for the pattern, and [int] refuses its 4302 digits:
    the decoder raises [ValueError] and returns no span. *)
Lemma long_start_absent_counterexample :
  ~ (forall (cu : SlitherCompilationUnit.t) (ds dl g3 : string) (sign : bool),
       is_number ds = true -> is_number dl = true -> is_number g3 = true ->
       SlitherCompilationUnit.source_units cu !! signed_value sign g3 = None ->
       _convert_source_mapping (encoding ds dl (file_group sign g3)) cu
       = Ok (unresolved cu (digits_value 0 ds) (digits_value 0 dl))).
Proof.
  intros H.
  destruct (zero_padded_rejected "10" eq_refl ltac:(discriminate))
    as (Hall & Hnum & Hrej & _).
  specialize (H demo_cu (zero_padded 4300 "10") "5" "999" false
                Hnum eq_refl eq_refl eq_refl).
  rewrite (rejected_group_value_error demo_cu (zero_padded 4300 "10") "5" "999"
             false Hall eq_refl eq_refl (or_introl Hrej)) in H.
  discriminate H.
Qed.

(** The limit is 4300 digits exactly: the start 10 written with 4300 digits
    is decoded, with 4301 digits it is refused. *)
Lemma digit_limit_boundary :
  String.length (zero_padded 4298 "10") = 4300%nat
  /\ _convert_source_mapping (encoding (zero_padded 4298 "10") "5" "999") demo_cu
     = Ok (unresolved demo_cu 10 5)
  /\ String.length (zero_padded 4299 "10") = 4301%nat
  /\ _convert_source_mapping (encoding (zero_padded 4299 "10") "5" "999") demo_cu
     = Raise ValueError.
Proof.
  assert (Hdec : is_decimal (zero_padded 4298 "10") = true)
    by (vm_compute; reflexivity).
  assert (Hval : digits_value 0 (zero_padded 4298 "10") = 10)
    by (vm_compute; reflexivity).
  assert (Hall : all_digits (zero_padded 4299 "10") = true)
    by (vm_compute; reflexivity).
  assert (Hrej : rejected_digits (zero_padded 4299 "10") = true)
    by (vm_compute; reflexivity).
  split; [vm_compute; reflexivity|]. split; [|split; [vm_compute; reflexivity|]].
  - pose proof (convert_wellformed demo_cu (zero_padded 4298 "10") "5" "999"
                  false Hdec eq_refl eq_refl) as E.
    change (file_group false "999") with "999" in E.
    now rewrite E, Hval.
  - exact (rejected_group_value_error demo_cu (zero_padded 4299 "10") "5" "999"
             false Hall eq_refl eq_refl (or_introl Hrej)).
Qed.

(** ** The line index computed from the text is monotone *)

Lemma line_col_at_lower (bytes : list Z) (off : nat) (line col l c : Z) :
  line_col_at bytes line col off = Some (l, c) -> line <= l.
Proof.
  revert bytes line col. induction off as [|k IH]; intros bytes line col; simpl.
  - intros [= <- <-]. lia.
  - destruct bytes as [|b r]; [discriminate|].
    destruct (b =? 10); intros H; apply IH in H; lia.
Qed.

Lemma line_col_at_monotone (bytes : list Z) (a b : nat) (line col la ca lb cb : Z) :
  (a <= b)%nat ->
  line_col_at bytes line col a = Some (la, ca) ->
  line_col_at bytes line col b = Some (lb, cb) ->
  la <= lb.
Proof.
  revert bytes b line col. induction a as [|a IH]; intros bytes b line col Hab.
  - simpl. intros [= <- <-] Hb. now apply line_col_at_lower in Hb.
  - destruct b as [|b]; [lia|]. simpl.
    destruct bytes as [|x r]; [discriminate|].
    destruct (x =? 10); apply IH; lia.
Qed.

Lemma text_line_index_monotone (cc : CryticCompile.t) (sources : gmap string (list Z)) :
  CryticCompile.get_line_from_offset cc = text_line_index sources ->
  line_index_monotone cc.
Proof.
  intros Hcc file a b la ca lb cb Hab. rewrite Hcc. unfold text_line_index.
  destruct (Z.ltb_spec a 0); [discriminate|].
  destruct (Z.ltb_spec b 0); [discriminate|].
  destruct (sources !! Filename.absolute file) as [text|]; [|discriminate].
  destruct (utf8_encode text) as [bytes|]; [|discriminate].
  apply line_col_at_monotone. lia.
Qed.

Lemma resolved_file_span_witness :
  exists span,
    _convert_source_mapping "9:8:0" demo_cu = Ok span
    /\ Source.start span = 9
    /\ Source.length span = 8
    /\ Source.end_ span = 9 + 8
    /\ Source.lines span <> []
    /\ head (Source.lines span) = Some 2
    /\ last (Source.lines span) = Some 2
    /\ contiguous (Source.lines span)
    /\ strictly_ascending (Source.lines span).
Proof.
  apply (resolved_file_span demo_cu "9" "8" "0" false eq_refl eq_refl eq_refl
           demo_cc "a.sol" eq_refl eq_refl 2 1 2 9);
    [ now apply (text_line_index_monotone demo_cc demo_sources)
    | reflexivity | reflexivity ].
Defined.

(** C3, as stated, fails: with the start 9 written after 4300 zeros, the
    file index 0 is in the table and the line index answers for the offsets
    9 and 17, yet [int] refuses the 4301 digits of the start: the decoder
    raises [ValueError] and returns no span. *)
Lemma long_start_resolved_counterexample :
  ~ (forall (cu : SlitherCompilationUnit.t) (ds dl g3 : string) (sign : bool)
            (cc : CryticCompile.t) (used : string) (sl sc el ec : Z),
       is_number ds = true -> is_number dl = true -> is_number g3 = true ->
       SlitherCompilationUnit.source_units cu !! signed_value sign g3 = Some used ->
       SlitherCore.crytic_compile (SlitherCompilationUnit.core cu) = Some cc ->
       line_index_monotone cc ->
       CryticCompile.get_line_from_offset cc (CryticCompile.filename_lookup cc used)
         (digits_value 0 ds) = Some (sl, sc) ->
       CryticCompile.get_line_from_offset cc (CryticCompile.filename_lookup cc used)
         (digits_value 0 ds + digits_value 0 dl) = Some (el, ec) ->
       exists span,
         _convert_source_mapping (encoding ds dl (file_group sign g3)) cu = Ok span).
Proof.
  intros H.
  destruct (zero_padded_rejected "9" eq_refl ltac:(discriminate))
    as (Hall & Hnum & Hrej & Hval).
  specialize (H demo_cu (zero_padded 4300 "9") "8" "0" false demo_cc "a.sol"
                2 1 2 9 Hnum eq_refl eq_refl eq_refl eq_refl
                (text_line_index_monotone demo_cc demo_sources eq_refl)).
  rewrite Hval in H. destruct (H eq_refl eq_refl) as [span Hspan].
  rewrite (rejected_group_value_error demo_cu (zero_padded 4300 "9") "8" "0"
             false Hall eq_refl eq_refl (or_introl Hrej)) in Hspan.
  discriminate Hspan.
Qed.

(** A range of length zero: one line, and the same column at both ends. *)
Lemma zero_length_span :
  exists span,
    _convert_source_mapping "9:0:0" demo_cu = Ok span
    /\ Source.lines span = [2]
    /\ Source.starting_column span = Source.ending_column span.
Proof. eexists. split; [reflexivity|]. split; reflexivity. Qed.

(** ** Strings that are not a single triple *)

Lemma span_digits_digits (s d r : string) :
  span_digits s = (d, r) -> all_digits d = true.
Proof.
  revert d r. induction s as [|c s IH]; intros d r; simpl.
  - now intros [= <- <-].
  - destruct (is_digit c) eqn:Hc.
    + destruct (span_digits s) as [d' r'] eqn:E. intros [= <- <-].
      simpl. rewrite Hc. now apply (IH d' r').
    + now intros [= <- <-].
Qed.

Lemma string_app_nil_r (a : string) : a +:+ EmptyString = a.
Proof. induction a as [|c a IH]; simpl_app; [reflexivity|now rewrite IH]. Qed.

(** [anchored_grammar] accepts exactly the strings of the shape digits,
    colon, digits, colon, optional minus, digits. *)
Lemma anchored_grammar_spec (s : string) :
  anchored_grammar s = true <->
  exists g1 g2 g3 sign,
    all_digits g1 = true /\ all_digits g2 = true /\ all_digits g3 = true /\
    s = encoding g1 g2 (file_group sign g3).
Proof.
  unfold anchored_grammar. split.
  - unfold match_here.
    destruct (span_digits s) as [g1 r1] eqn:E1.
    pose proof (span_digits_digits _ _ _ E1) as D1. apply span_digits_split in E1.
    destruct r1 as [|c1 r2]; [discriminate|].
    destruct (Ascii.eqb_spec c1 colon) as [->|]; [|discriminate].
    destruct (span_digits r2) as [g2 r3] eqn:E2.
    pose proof (span_digits_digits _ _ _ E2) as D2. apply span_digits_split in E2.
    destruct r3 as [|c2 r4]; [discriminate|].
    destruct (Ascii.eqb_spec c2 colon) as [->|]; [|discriminate].
    destruct r4 as [|c3 r5].
    + intros _. exists g1, g2, EmptyString, false. subst. repeat split; assumption.
    + destruct (Ascii.eqb_spec c3 minus) as [->|].
      * destruct (span_digits r5) as [g3 r6] eqn:E3.
        pose proof (span_digits_digits _ _ _ E3) as D3. apply span_digits_split in E3.
        destruct r6; [|discriminate]. intros _.
        rewrite string_app_nil_r in E3.
        exists g1, g2, g3, true. subst. repeat split; assumption.
      * destruct (span_digits (String c3 r5)) as [g3 r6] eqn:E3.
        pose proof (span_digits_digits _ _ _ E3) as D3. apply span_digits_split in E3.
        destruct r6; [|discriminate]. intros _.
        rewrite string_app_nil_r in E3.
        exists g1, g2, g3, false. subst s r2. rewrite E3. repeat split; assumption.
  - intros (g1 & g2 & g3 & sign & H1 & H2 & H3 & ->).
    now rewrite match_here_encoding.
Qed.

(** C6, as stated, fails: a triple with characters around it does not match
    the anchored grammar, yet it is decoded as the triple. *)
Lemma anchored_default_counterexample :
  ~ (forall (offset : string) (cu : SlitherCompilationUnit.t),
       anchored_grammar offset = false ->
       _convert_source_mapping offset cu = Ok (Source.__init__ (Some cu))).
Proof.
  intros H. specialize (H "a12:3:4b" demo_cu eq_refl).
  assert (E : _convert_source_mapping "a12:3:4b" demo_cu
              = Ok (unresolved demo_cu 12 3)) by reflexivity.
  rewrite E in H. injection H as H. discriminate H.
Qed.

(** Anything but exactly one match gives the default span. *)
Lemma convert_not_single (offset : string) (cu : SlitherCompilationUnit.t) :
  List.length (re_findall offset) <> 1%nat ->
  _convert_source_mapping offset cu = Ok (Source.__init__ (Some cu)).
Proof.
  intros Hlen. unfold _convert_source_mapping.
  destruct (re_findall offset) as [|[[s l] f] [|g rest]]; try reflexivity.
  now contradiction Hlen.
Qed.

(** C6, amended. Whenever the pattern, searched anywhere in the string as
    [re.findall] does, is not found exactly once, the decoder returns the
    span with every field at its default and raises nothing; this covers the
    empty string and every string with fewer than two colons. *)
Theorem malformed_default (offset : string) (cu : SlitherCompilationUnit.t) :
  (count_colons offset < 2)%nat \/ List.length (re_findall offset) <> 1%nat ->
  _convert_source_mapping offset cu = Ok (Source.__init__ (Some cu)).
Proof.
  intros H. apply convert_not_single.
  destruct H as [H|H]; [|exact H]. now rewrite re_findall_few_colons.
Qed.

Lemma malformed_default_witness :
  ((count_colons "" < 2)%nat \/ List.length (re_findall "") <> 1%nat) /\
  _convert_source_mapping "" demo_cu = Ok (Source.__init__ (Some demo_cu)).
Proof.
  split; [left; simpl; lia|].
  apply (malformed_default "" demo_cu). left. simpl. lia.
Defined.

(** Two triples in one string: two matches, hence the default span. *)
Lemma two_triples_default (cu : SlitherCompilationUnit.t) :
  re_findall "1:2:3 4:5:6" = [("1", "2", "3"); ("4", "5", "6")] /\
  _convert_source_mapping "1:2:3 4:5:6" cu = Ok (Source.__init__ (Some cu)).
Proof. split; [reflexivity|]. apply convert_not_single. now simpl. Qed.

(** ** Empty components *)

(** A triple with an empty component matches the pattern, and [int] then
    raises on the empty group. *)
Lemma empty_group_value_error (cu : SlitherCompilationUnit.t)
    (g1 g2 g3 : string) (sign : bool) :
  all_digits g1 = true -> all_digits g2 = true -> all_digits g3 = true ->
  g1 = EmptyString \/ g2 = EmptyString \/ g3 = EmptyString ->
  _convert_source_mapping (encoding g1 g2 (file_group sign g3)) cu
  = Raise ValueError.
Proof.
  intros H1 H2 H3 Hempty. unfold _convert_source_mapping.
  rewrite re_findall_encoding by assumption.
  destruct (py_int_digits g1 H1) as [[-> _]|(N1 & _ & -> & _)]; [reflexivity|].
  destruct (py_int_digits g2 H2) as [[-> _]|(N2 & _ & -> & _)]; [reflexivity|].
  destruct (py_int_file_group_cases sign g3 H3) as [[-> _]|(N3 & _ & _)];
    [reflexivity|].
  destruct Hempty as [? | [? | ?]]; contradiction.
Qed.

(** C7. The claim fails on the code at these inputs: each matches the pattern
    once, with an empty group, and the conversion of that group by [int]
    raises [ValueError] instead of giving zero or "no file". *)
Theorem empty_component_raises (cu : SlitherCompilationUnit.t) :
  _convert_source_mapping "1:2:" cu = Raise ValueError /\
  _convert_source_mapping ":2:0" cu = Raise ValueError /\
  _convert_source_mapping "1::0" cu = Raise ValueError /\
  _convert_source_mapping "::" cu = Raise ValueError /\
  _convert_source_mapping "1:2:-" cu = Raise ValueError.
Proof. repeat split; reflexivity. Qed.

(** The file index [-1] is decoded; it gives the unresolved span when the
    table has no entry for it. *)
Lemma minus_one_unresolved (cu : SlitherCompilationUnit.t) :
  SlitherCompilationUnit.source_units cu !! (-1) = None ->
  _convert_source_mapping "3:4:-1" cu = Ok (unresolved cu 3 4).
Proof.
  intros Habsent.
  change "3:4:-1" with (encoding "3" "4" (file_group true "1")).
  rewrite (convert_wellformed cu "3" "4" "1" true eq_refl eq_refl eq_refl).
  change (signed_value true "1") with (-1). now rewrite Habsent.
Qed.

(** ** The invariant on [end] *)

Lemma decoded_invariant_or_unresolved (offset : string)
    (cu : SlitherCompilationUnit.t) (a : Source.t) :
  _convert_source_mapping offset cu = Ok a ->
  end_invariant a \/ exists s l, a = unresolved cu s l.
Proof.
  unfold _convert_source_mapping.
  destruct (re_findall offset) as [|[[s l] f] [|g rest]].
  - intros [= <-]. left. reflexivity.
  - destruct (py_int s) as [vs|]; [|discriminate]. simpl.
    destruct (py_int l) as [vl|]; [|discriminate]. simpl.
    destruct (py_int f) as [vf|]; [|discriminate]. simpl.
    destruct (SlitherCompilationUnit.source_units cu !! vf) as [used|].
    + destruct (SlitherCore.crytic_compile (SlitherCompilationUnit.core cu))
        as [cc|]; [|discriminate].
      destruct (_compute_line cu (CryticCompile.filename_lookup cc used) vs vl)
        as [[[lines sc] ec]|]; [|discriminate].
      simpl. intros [= <-]. left. reflexivity.
    + intros [= <-]. right. now exists vs, vl.
  - intros [= <-]. left. reflexivity.
Qed.

(** C4. The claim fails on the code at this input: the branch for a file
    index that is not in the table sets [start] and [length] and leaves [end]
    at zero, where the branch for a known file sets [end = start + length]. *)
Theorem unresolved_breaks_end_invariant :
  exists a,
    _convert_source_mapping "10:5:999" demo_cu = Ok a
    /\ Source.start a = 10 /\ Source.length a = 5 /\ Source.end_ a = 0
    /\ ~ end_invariant a.
Proof.
  exists (unresolved demo_cu 10 5). repeat split. discriminate.
Qed.

(** ** Failures of the line index *)

(** C2. The claim fails on the code at this input: the file index 0 is in the
    table, the line index has no entry for the start offset 100, and the
    decoder lets the [KeyError] of that first lookup through; only the
    lookup of the end offset is converted. *)
Theorem stale_start_offset_key_error :
  SlitherCompilationUnit.source_units demo_cu !! 0 = Some "a.sol"
  /\ CryticCompile.get_line_from_offset demo_cc demo_file 100 = None
  /\ _convert_source_mapping "100:5:0" demo_cu = Raise KeyError
  /\ _convert_source_mapping "9:100:0" demo_cu
     = Raise (SlitherException (stale_msg "a.sol")).
Proof. repeat split; vm_compute; reflexivity. Qed.

(** ** Equality and hash *)

Lemma getattr_cases (v : pyval) (name : string) :
  (exists x, getattr v name = Ok x) \/ getattr v name = Raise AttributeError.
Proof.
  destruct v; simpl; auto.
  destruct (assoc_lookup name attrs); eauto.
Qed.

(** Between two spans, [__eq__] compares [start], the relative file name, the
    dependency flag and [end]. *)
Lemma eq_between_spans (a b : Source.t) :
  Source.__eq__ a (Source.to_object b) =
  Ok (PyBool ((Source.start a =? Source.start b)
              && String.eqb (Filename.relative (Source.filename a))
                            (Filename.relative (Source.filename b))
              && Bool.eqb (Source.is_dependency a) (Source.is_dependency b)
              && (Source.end_ a =? Source.end_ b))).
Proof.
  unfold Source.__eq__, Source.to_object. simpl.
  destruct (Source.start a =? Source.start b); [|reflexivity]. simpl.
  destruct (String.eqb _ _); [|reflexivity]. simpl.
  destruct (Bool.eqb _ _); reflexivity.
Qed.

(** Under the invariant [end = start + length], equal spans hand equal
    tuples to [hash], hence have equal hashes for any [hash]. *)
Lemma eq_hash_under_invariant (hash : Z * Z * string * Z -> Z) (a b : Source.t) :
  end_invariant a -> end_invariant b ->
  Source.__eq__ a (Source.to_object b) = Ok (PyBool true) ->
  Source.__hash__ hash a = Source.__hash__ hash b.
Proof.
  unfold end_invariant. intros Ha Hb. rewrite eq_between_spans. intros [= H].
  apply andb_prop in H as [H He]. apply andb_prop in H as [H _].
  apply andb_prop in H as [Hs Hr].
  apply Z.eqb_eq in Hs, He. apply String.eqb_eq in Hr.
  assert (Hl : Source.length a = Source.length b) by lia.
  unfold Source.__hash__, Source.hash_key. now rewrite Hs, Hr, He, Hl.
Qed.

(** C1. The claim fails on the code at this pair: two spans decoded from an
    unknown file index with the same start and different lengths are equal
    for [__eq__] (their [end] is zero in both), and the tuples they hand to
    [hash] differ in the length, so any [hash] that tells these two tuples
    apart gives them different hashes. *)
Theorem unresolved_eq_hash_mismatch :
  exists a b,
    _convert_source_mapping "10:5:999" demo_cu = Ok a
    /\ _convert_source_mapping "10:7:999" demo_cu = Ok b
    /\ Source.__eq__ a (Source.to_object b) = Ok (PyBool true)
    /\ Source.hash_key a = (10, 5, "", 0)
    /\ Source.hash_key b = (10, 7, "", 0)
    /\ forall hash : Z * Z * string * Z -> Z,
         hash (10, 5, "", 0) <> hash (10, 7, "", 0) ->
         Source.__hash__ hash a <> Source.__hash__ hash b.
Proof.
  exists (unresolved demo_cu 10 5), (unresolved demo_cu 10 7).
  repeat split. intros hash Hsep. exact Hsep.
Qed.

(** C10. [__eq__] raises nothing, whatever it is compared with; against a
    value without the attributes [start], [end], [filename] and
    [is_dependency] it returns [NotImplemented]. *)
Theorem eq_against_foreign_object (self : Source.t) (other : pyval) :
  (exists v, Source.__eq__ self other = Ok v
             /\ (v = PyNotImplemented \/ exists b, v = PyBool b))
  /\ (lacks other "start" -> lacks other "end" ->
      lacks other "filename" -> lacks other "is_dependency" ->
      Source.__eq__ self other = Ok PyNotImplemented).
Proof.
  split.
  - unfold Source.__eq__.
    destruct (getattr_cases other "start") as [[x ->]| ->]; simpl; [|eauto].
    destruct (negb (int_eq (Source.start self) x)); [eauto|].
    destruct (getattr_cases other "filename") as [[fn ->]| ->]; simpl; [|eauto].
    destruct (getattr_cases fn "relative") as [[r ->]| ->]; simpl; [|eauto].
    destruct (negb (str_eq _ r)); [eauto|].
    destruct (getattr_cases other "is_dependency") as [[d ->]| ->]; simpl; [|eauto].
    destruct (negb (bool_eq _ d)); [eauto|].
    destruct (getattr_cases other "end") as [[e ->]| ->]; simpl; eauto.
  - unfold lacks, Source.__eq__. intros -> _ _ _. reflexivity.
Qed.

Lemma eq_against_foreign_object_witness :
  lacks (PyInt 5) "start" /\ lacks (PyInt 5) "end" /\
  lacks (PyInt 5) "filename" /\ lacks (PyInt 5) "is_dependency" /\
  Source.__eq__ (Source.__init__ None) (PyInt 5) = Ok PyNotImplemented.
Proof.
  refine (conj eq_refl (conj eq_refl (conj eq_refl (conj eq_refl _)))).
  apply (eq_against_foreign_object (Source.__init__ None) (PyInt 5)); reflexivity.
Defined.

(** The attribute failure is only met when its comparison is reached: an
    object with a different [start] and nothing else compares as [False]. *)
Lemma eq_short_circuit (self : Source.t) :
  Source.__eq__ self (PyObj [("start", PyInt (Source.start self + 1))])
  = Ok (PyBool false).
Proof.
  unfold Source.__eq__. simpl.
  destruct (Z.eqb_spec (Source.start self) (Source.start self + 1)); [lia|].
  reflexivity.
Qed.

(** An object with the matching [start] and no [filename]: [NotImplemented]. *)
Lemma eq_missing_filename (self : Source.t) :
  Source.__eq__ self (PyObj [("start", PyInt (Source.start self))])
  = Ok PyNotImplemented.
Proof. unfold Source.__eq__. simpl. now rewrite Z.eqb_refl. Qed.

(** ** UTF-8: decoding undoes encoding *)

Ltac decide_tests :=
  repeat match goal with
         | |- context [?a <=? ?b] =>
             destruct (Z.leb_spec a b);
             [| try (exfalso; Z.div_mod_to_equations; lia)];
             try (exfalso; Z.div_mod_to_equations; lia)
         | |- context [?a <? ?b] =>
             destruct (Z.ltb_spec a b);
             [| try (exfalso; Z.div_mod_to_equations; lia)];
             try (exfalso; Z.div_mod_to_equations; lia)
         end.

Lemma utf8_decode_encoded_char (c : Z) (bs rest : list Z) :
  utf8_encode_char c = Ok bs ->
  utf8_decode (bs ++ rest) = (t ← utf8_decode rest; Ok (c :: t)).
Proof.
  unfold utf8_encode_char.
  destruct (Z.ltb_spec c 0); [discriminate|].
  destruct (Z.ltb_spec c 0x80).
  { intros [= <-]. cbn [app utf8_decode]. decide_tests. reflexivity. }
  destruct (Z.ltb_spec c 0x800).
  { intros [= <-]. cbn [app utf8_decode]. unfold is_continuation.
    decide_tests. cbn [andb].
    replace ((0xC0 + c / 64 - 0xC0) * 64 + (0x80 + c mod 64 - 0x80)) with c
      by (Z.div_mod_to_equations; lia).
    reflexivity. }
  destruct (Z.ltb_spec c 0x10000).
  { unfold is_surrogate.
    destruct (Z.leb_spec 0xD800 c); destruct (Z.leb_spec c 0xDFFF);
      cbn [andb]; try discriminate.
    all: intros [= <-]; cbn [app utf8_decode]; unfold is_continuation, is_surrogate.
    all: replace ((0xE0 + c / 4096 - 0xE0) * 4096
                  + (0x80 + (c / 64) mod 64 - 0x80) * 64
                  + (0x80 + c mod 64 - 0x80)) with c
           by (Z.div_mod_to_equations; lia).
    all: decide_tests; reflexivity. }
  destruct (Z.ltb_spec c 0x110000); [|discriminate].
  intros [= <-]. cbn [app utf8_decode]. unfold is_continuation.
  replace ((0xF0 + c / 262144 - 0xF0) * 262144
           + (0x80 + (c / 4096) mod 64 - 0x80) * 4096
           + (0x80 + (c / 64) mod 64 - 0x80) * 64
           + (0x80 + c mod 64 - 0x80)) with c
    by (Z.div_mod_to_equations; lia).
  decide_tests. reflexivity.
Qed.

Lemma utf8_roundtrip (s bs : list Z) :
  utf8_encode s = Ok bs -> utf8_decode bs = Ok s.
Proof.
  revert bs. induction s as [|c s IH]; intros bs; simpl.
  - now intros [= <-].
  - destruct (utf8_encode_char c) as [b|] eqn:Ec; [|discriminate]. simpl.
    destruct (utf8_encode s) as [r|] eqn:Es; [|discriminate]. simpl.
    intros [= <-]. rewrite (utf8_decode_encoded_char c b r Ec).
    now rewrite (IH r eq_refl).
Qed.

Lemma utf8_encode_app (a b : list Z) :
  utf8_encode (a ++ b) =
  (x ← utf8_encode a; y ← utf8_encode b; Ok (x ++ y)).
Proof.
  induction a as [|c a IH]; simpl.
  - now destruct (utf8_encode b).
  - destruct (utf8_encode_char c) as [bc|]; [|reflexivity]. simpl.
    rewrite IH. destruct (utf8_encode a) as [x|]; [|reflexivity]. simpl.
    destruct (utf8_encode b) as [y|]; [|reflexivity]. simpl.
    now rewrite app_assoc.
Qed.

(** ASCII text is its own encoding: one byte for each character. *)
Lemma utf8_encode_ascii (s : list Z) :
  forallb is_ascii s = true -> utf8_encode s = Ok s.
Proof.
  induction s as [|c s IH]; simpl; [reflexivity|].
  intros [Hc Hs]%andb_prop. rewrite (IH Hs). unfold utf8_encode_char.
  unfold is_ascii in Hc. apply andb_prop in Hc as [H0 H1].
  apply Z.leb_le in H0. apply Z.ltb_lt in H1.
  destruct (Z.ltb_spec c 0); [lia|]. destruct (Z.ltb_spec c 0x80); [|lia].
  reflexivity.
Qed.

(** ** Slices *)

Lemma py_slice_nonneg {A : Type} (l : list A) (i j : Z) :
  0 <= i -> 0 <= j ->
  py_slice l i j = take (Z.to_nat (j - i)) (drop (Z.to_nat i) l).
Proof.
  intros Hi Hj. unfold py_slice.
  destruct (Z.ltb_spec i 0); [lia|]. destruct (Z.ltb_spec j 0); [lia|].
  set (n := List.length l).
  destruct (Z_le_gt_dec i (Z.of_nat n)) as [Hin|Hin].
  - rewrite (Z.min_l i) by lia.
    destruct (Z_le_gt_dec j (Z.of_nat n)) as [Hjn|Hjn].
    + now rewrite (Z.min_l j) by lia.
    + rewrite (Z.min_r j) by lia.
      rewrite !take_ge; [reflexivity| |]; rewrite length_drop; fold n; lia.
  - rewrite (Z.min_r i) by lia.
    rewrite !drop_ge by (fold n; lia). now rewrite !take_nil.
Qed.

Lemma py_slice_middle {A : Type} (a b c : list A) :
  py_slice (a ++ b ++ c) (Z.of_nat (List.length a))
           (Z.of_nat (List.length a) + Z.of_nat (List.length b)) = b.
Proof.
  rewrite py_slice_nonneg by lia.
  rewrite Nat2Z.id, drop_app_length.
  replace (Z.to_nat _) with (List.length b) by lia.
  apply take_app_length.
Qed.

(** ** [content] *)

(** A span that begins and ends between two characters has the characters
    in between as its content. *)
Lemma content_on_boundaries (self : Source.t) (cu : SlitherCompilationUnit.t)
    (before inside after bbefore binside bafter : list Z) :
  Source.compilation_unit self = Some cu ->
  SlitherCore.source_code (SlitherCompilationUnit.core cu)
    !! Filename.absolute (Source.filename self) = Some (before ++ inside ++ after) ->
  utf8_encode before = Ok bbefore ->
  utf8_encode inside = Ok binside ->
  utf8_encode after = Ok bafter ->
  Source.start self = Z.of_nat (List.length bbefore) ->
  Source.end_ self = Source.start self + Z.of_nat (List.length binside) ->
  Source.content self = Ok inside.
Proof.
  intros Hcu Htext Hb Hi Ha Hstart Hend. unfold Source.content.
  rewrite Hcu, Htext, !utf8_encode_app, Hb, Hi, Ha. simpl.
  rewrite Hend, Hstart, py_slice_middle. now apply utf8_roundtrip.
Qed.

Lemma utf8_encode_char_length (c : Z) (bs : list Z) :
  utf8_encode_char c = Ok bs -> Z.of_nat (List.length bs) = utf8_width c.
Proof.
  unfold utf8_encode_char, utf8_width.
  destruct (c <? 0); [discriminate|].
  destruct (c <? 0x80); [now intros [= <-]|].
  destruct (c <? 0x800); [now intros [= <-]|].
  destruct (c <? 0x10000).
  - destruct (is_surrogate c); [discriminate|now intros [= <-]].
  - destruct (c <? 0x110000); [now intros [= <-]|discriminate].
Qed.

(** The bytes of a text are as many as the widths of its characters. *)
Lemma utf8_encode_length (s bs : list Z) :
  utf8_encode s = Ok bs -> Z.of_nat (List.length bs) = utf8_length s.
Proof.
  revert bs. induction s as [|c s IH]; intros bs; simpl.
  - now intros [= <-].
  - destruct (utf8_encode_char c) as [b|] eqn:Ec; [|discriminate]. simpl.
    destruct (utf8_encode s) as [r|]; [|discriminate]. simpl.
    intros [= <-]. rewrite length_app, Nat2Z.inj_add.
    now rewrite (utf8_encode_char_length c b Ec), (IH r eq_refl).
Qed.

(** C8. The content of a span is the text of its file, encoded, cut on the
    bytes from [start] to [end], and decoded.  When the span covers some
    characters of the text, whatever they are, its [start] being the number
    of bytes of the text before them and its [end] that of the text up to
    their end, the content is exactly these characters; the offsets count
    one to four bytes for each character, not one.  In particular, ASCII
    characters that follow any text, multi-byte characters included, are
    returned exactly, the length of the span being their number. *)
Theorem content_byte_slice (self : Source.t) (cu : SlitherCompilationUnit.t)
    (text : list Z) :
  Source.compilation_unit self = Some cu ->
  SlitherCore.source_code (SlitherCompilationUnit.core cu)
    !! Filename.absolute (Source.filename self) = Some text ->
  0 <= Source.start self -> 0 <= Source.end_ self ->
  Source.content self =
    (bytes ← utf8_encode text;
     utf8_decode (take (Z.to_nat (Source.end_ self - Source.start self))
                       (drop (Z.to_nat (Source.start self)) bytes)))
  /\ (forall before inside after bbefore binside bafter,
        text = before ++ inside ++ after ->
        utf8_encode before = Ok bbefore ->
        utf8_encode inside = Ok binside ->
        utf8_encode after = Ok bafter ->
        Source.start self = Z.of_nat (List.length bbefore) ->
        Source.end_ self = Source.start self + Z.of_nat (List.length binside) ->
        Source.content self = Ok inside
        /\ Source.start self = utf8_length before
        /\ Source.end_ self = utf8_length (before ++ inside))
  /\ (forall before inside after bbefore bafter,
        text = before ++ inside ++ after ->
        utf8_encode before = Ok bbefore ->
        utf8_encode after = Ok bafter ->
        forallb is_ascii inside = true ->
        Source.start self = Z.of_nat (List.length bbefore) ->
        Source.end_ self = Source.start self + Z.of_nat (List.length inside) ->
        Source.content self = Ok inside).
Proof.
  intros Hcu Htext Hs He. split; [|split].
  - unfold Source.content. rewrite Hcu, Htext.
    destruct (utf8_encode text) as [bytes|]; [|reflexivity]. simpl.
    now rewrite py_slice_nonneg.
  - intros before inside after bbefore binside bafter -> Hb Hi Ha Hstart Hend.
    split; [|split].
    + now apply (content_on_boundaries self cu before inside after
                   bbefore binside bafter).
    + rewrite Hstart. now apply utf8_encode_length.
    + rewrite Hend, Hstart, <- Nat2Z.inj_add, <- length_app.
      apply utf8_encode_length. now rewrite utf8_encode_app, Hb, Hi.
  - intros before inside after bbefore bafter -> Hb Ha Hascii Hstart Hend.
    apply (content_on_boundaries self cu before inside after bbefore inside bafter);
      auto using utf8_encode_ascii.
Qed.

(** The word "contract", after a comment with two multi-byte characters, and
    these two characters themselves: five bytes from offset 3. *)
Lemma content_byte_slice_witness :
  _convert_source_mapping "9:8:0" demo_cu = Ok demo_span
  /\ Source.content demo_span = Ok (codepoints "contract")
  /\ Source.content (demo_span_at 3 5) = Ok [0xE9; 0x20AC]
  /\ Source.start (demo_span_at 3 5) = utf8_length (codepoints "// ")
  /\ Source.end_ (demo_span_at 3 5)
     = utf8_length (codepoints "// " ++ [0xE9; 0x20AC]).
Proof.
  split; [reflexivity|]. split.
  - refine (proj2 (proj2 (content_byte_slice demo_span demo_cu demo_text
                            eq_refl eq_refl _ _))
              (codepoints "// " ++ [0xE9; 0x20AC; 10]) (codepoints "contract")
              (codepoints " C {}" ++ [10])
              [47; 47; 32; 0xC3; 0xA9; 0xE2; 0x82; 0xAC; 10]
              (codepoints " C {}" ++ [10])
              eq_refl eq_refl eq_refl eq_refl eq_refl eq_refl);
      simpl; lia.
  - refine (proj1 (proj2 (content_byte_slice (demo_span_at 3 5) demo_cu demo_text
                            eq_refl eq_refl _ _))
              (codepoints "// ") [0xE9; 0x20AC]
              (10 :: codepoints "contract C {}" ++ [10])
              [47; 47; 32] [0xC3; 0xA9; 0xE2; 0x82; 0xAC]
              (10 :: codepoints "contract C {}" ++ [10])
              eq_refl eq_refl eq_refl eq_refl eq_refl eq_refl);
      simpl; lia.
Defined.

(** Cutting the characters instead of the bytes at the same offsets gives a
    shifted text. *)
Lemma character_slice_differs :
  py_slice demo_text 9 17 = codepoints "tract C " /\
  Source.content demo_span = Ok (codepoints "contract").
Proof. split; vm_compute; reflexivity. Qed.

(** ** The digest *)

Lemma all_hex_app (a b : string) :
  all_hex (a +:+ b) = all_hex a && all_hex b.
Proof.
  induction a as [|c a IH]; simpl_app; simpl; [reflexivity|].
  now rewrite IH, andb_assoc.
Qed.

Lemma hex_digit_is_hex (n : Z) :
  0 <= n < 16 -> SHA1.is_hex_digit (SHA1.hex_digit n) = true.
Proof.
  intros Hn.
  assert (Hall : forallb (fun k : nat => SHA1.is_hex_digit (SHA1.hex_digit (Z.of_nat k)))
                         (seq 0 16) = true) by reflexivity.
  rewrite forallb_forall in Hall.
  specialize (Hall (Z.to_nat n)). rewrite Z2Nat.id in Hall by lia.
  apply Hall. apply in_seq. lia.
Qed.

Lemma hex8_length (x : Z) : String.length (SHA1.hex8 x) = 8%nat.
Proof. reflexivity. Qed.

Lemma hex8_all_hex (x : Z) : all_hex (SHA1.hex8 x) = true.
Proof.
  unfold SHA1.hex8. cbn [all_hex].
  rewrite !hex_digit_is_hex by (apply Z.mod_pos_bound; lia). reflexivity.
Qed.

(** The digest is forty lower-case hexadecimal digits: 160 bits. *)
Lemma hexdigest_format (msg : list Z) :
  String.length (SHA1.hexdigest msg) = 40%nat /\ all_hex (SHA1.hexdigest msg) = true.
Proof.
  unfold SHA1.hexdigest. destruct (SHA1.digest_state msg) as [a b c d e]. split.
  - now rewrite !string_length_app, !hex8_length.
  - now rewrite !all_hex_app, !hex8_all_hex.
Qed.

(** The five words of the state are 32-bit words, so their forty digits
    show the whole state. *)
Lemma digest_state_words (msg : list Z) : state_words (SHA1.digest_state msg).
Proof.
  unfold SHA1.digest_state.
  generalize (seq 0 (List.length (SHA1.pad msg) / 64)). intros blocks.
  assert (Hinit : state_words SHA1.initial)
    by (unfold state_words, word32; simpl; lia).
  revert Hinit. generalize SHA1.initial.
  induction blocks as [|i blocks IH]; intros st Hst; simpl; [exact Hst|].
  apply IH. unfold SHA1.compress.
  destruct (fold_left _ _ st) as [a b c d e].
  unfold state_words, word32, SHA1.w32; simpl.
  repeat split; apply Z.mod_pos_bound; lia.
Qed.

(** C9. Decoding the same encoding twice against the same compilation unit
    gives spans with the same [content_hash]; a [content_hash] is the SHA-1
    digest of the UTF-8 bytes of the content, five words of 32 bits (160
    bits) written as forty hexadecimal digits; it depends on the content
    alone, so that any span with the same content has the same
    [content_hash]; and on the empty content, on "abc", on the two-block
    message of FIPS 180, on the word "contract" and on a content of two
    multi-byte characters it is the digest that SHA-1 gives for their
    bytes. *)
Theorem content_hash_deterministic (offset : string)
    (cu : SlitherCompilationUnit.t) (a b : Source.t) :
  _convert_source_mapping offset cu = Ok a ->
  _convert_source_mapping offset cu = Ok b ->
  Source.content_hash a = Source.content_hash b
  /\ (forall h, Source.content_hash a = Ok h ->
        String.length h = 40%nat
        /\ all_hex h = true
        /\ exists c bytes,
             Source.content a = Ok c /\ utf8_encode c = Ok bytes
             /\ h = SHA1.hexdigest bytes
             /\ state_words (SHA1.digest_state bytes))
  /\ (forall other, Source.content other = Source.content a ->
        Source.content_hash other = Source.content_hash a)
  /\ (Source.content a = Ok [] ->
      Source.content_hash a = Ok "da39a3ee5e6b4b0d3255bfef95601890afd80709")
  /\ (Source.content a = Ok (codepoints "abc") ->
      Source.content_hash a = Ok "a9993e364706816aba3e25717850c26c9cd0d89d")
  /\ (Source.content a
      = Ok (codepoints "abcdbcdecdefdefgefghfghighijhijkijkljklmklmnlmnomnopnopq") ->
      Source.content_hash a = Ok "84983e441c3bd26ebaae4aa1f95129e5e54670f1")
  /\ (Source.content a = Ok (codepoints "contract") ->
      Source.content_hash a = Ok "d61ceadbdb0081cce7a2c1f65558bd2243ecc161")
  /\ (Source.content a = Ok [0xE9; 0x20AC] ->
      Source.content_hash a = Ok "f299a77642b6437431ada56c0643f7b8e99b5622").
Proof.
  intros Ha Hb. rewrite Ha in Hb. injection Hb as <-. split; [reflexivity|].
  split.
  { intros h. unfold Source.content_hash.
    destruct (Source.content a) as [c|] eqn:Ec; [|discriminate]. simpl.
    destruct (utf8_encode c) as [bytes|] eqn:Eb; [|discriminate]. simpl.
    intros [= <-]. destruct (hexdigest_format bytes) as [Hlen Hhex].
    split; [exact Hlen|]. split; [exact Hhex|].
    exists c, bytes. auto using digest_state_words. }
  split.
  { intros other Hc. unfold Source.content_hash. now rewrite Hc. }
  repeat split; intros Hc; unfold Source.content_hash; rewrite Hc;
    vm_compute; reflexivity.
Qed.

Lemma content_hash_deterministic_witness :
  _convert_source_mapping "9:8:0" demo_cu = Ok demo_span
  /\ Source.content demo_span = Ok (codepoints "contract")
  /\ Source.content_hash demo_span = Ok "d61ceadbdb0081cce7a2c1f65558bd2243ecc161"
  /\ String.length "d61ceadbdb0081cce7a2c1f65558bd2243ecc161" = 40%nat
  /\ all_hex "d61ceadbdb0081cce7a2c1f65558bd2243ecc161" = true.
Proof.
  assert (Hd : _convert_source_mapping "9:8:0" demo_cu = Ok demo_span)
    by reflexivity.
  assert (Hc : Source.content demo_span = Ok (codepoints "contract"))
    by (vm_compute; reflexivity).
  destruct (content_hash_deterministic "9:8:0" demo_cu demo_span demo_span Hd Hd)
    as (_ & Hfmt & _ & _ & _ & _ & Hword & _).
  pose proof (Hword Hc) as Hh.
  destruct (Hfmt _ Hh) as (Hlen & Hhex & _).
  exact (conj Hd (conj Hc (conj Hh (conj Hlen Hhex)))).
Defined.

(** Test vectors of FIPS 180: the empty message and "abc". *)
Lemma sha1_test_vectors :
  SHA1.hexdigest [] = "da39a3ee5e6b4b0d3255bfef95601890afd80709"
  /\ SHA1.hexdigest (codepoints "abc") = "a9993e364706816aba3e25717850c26c9cd0d89d".
Proof. split; vm_compute; reflexivity. Qed.

(** * Further properties *)

(** ** The groups the pattern captures *)

Lemma match_here_groups (s : string) (g : string * string * string) (rest : string) :
  match_here s = Some (g, rest) -> group_shape g.
Proof.
  unfold match_here.
  destruct (span_digits s) as [g1 r1] eqn:E1.
  pose proof (span_digits_digits _ _ _ E1) as D1.
  destruct r1 as [|c1 r2]; [discriminate|].
  destruct (Ascii.eqb c1 colon); [|discriminate].
  destruct (span_digits r2) as [g2 r3] eqn:E2.
  pose proof (span_digits_digits _ _ _ E2) as D2.
  destruct r3 as [|c2 r4]; [discriminate|].
  destruct (Ascii.eqb c2 colon); [|discriminate].
  destruct r4 as [|c3 r5].
  - intros [= <- <-]. repeat split; auto. now exists false, EmptyString.
  - destruct (Ascii.eqb c3 minus).
    + destruct (span_digits r5) as [g3 r6] eqn:E3.
      pose proof (span_digits_digits _ _ _ E3) as D3.
      intros [= <- <-]. repeat split; auto. now exists true, g3.
    + destruct (span_digits (String c3 r5)) as [g3 r6] eqn:E3.
      pose proof (span_digits_digits _ _ _ E3) as D3.
      intros [= <- <-]. repeat split; auto. now exists false, g3.
Qed.

Lemma re_findall_groups (s : string) : Forall group_shape (re_findall s).
Proof.
  funelim (re_findall s).
  - constructor; [|assumption]. now apply (match_here_groups s g rest).
  - constructor.
  - assumption.
Qed.

(** What the decoder does on a string with exactly one match. *)
Lemma convert_single (offset : string) (cu : SlitherCompilationUnit.t)
    (g1 g2 g3 : string) :
  re_findall offset = [(g1, g2, g3)] ->
  _convert_source_mapping offset cu =
  (s ← py_int g1; l ← py_int g2; f ← py_int g3;
   match SlitherCompilationUnit.source_units cu !! f with
   | None => Ok (unresolved cu s l)
   | Some filename_used =>
       match SlitherCore.crytic_compile (SlitherCompilationUnit.core cu) with
       | None => Raise AssertionError
       | Some cc =>
           let filename := CryticCompile.filename_lookup cc filename_used in
           '(lines, starting_column, ending_column) ←
             _compute_line cu filename s l;
           Ok {| Source.start := s;
                 Source.length := l;
                 Source.filename := filename;
                 Source.is_dependency :=
                   CryticCompile.is_dependency cc (Filename.absolute filename);
                 Source.lines := lines;
                 Source.starting_column := starting_column;
                 Source.ending_column := ending_column;
                 Source.end_ := s + l;
                 Source.compilation_unit := Some cu |}
       end
   end).
Proof. intros H. unfold _convert_source_mapping. now rewrite H. Qed.

Lemma single_match_shape (offset : string) (g : string * string * string) :
  re_findall offset = [g] -> group_shape g.
Proof.
  intros H. pose proof (re_findall_groups offset) as F. rewrite H in F.
  now inversion F.
Qed.

(** X1. Whatever the input, a span the decoder returns has a start, a length
    and an end that are not negative, and is bound to the compilation unit
    it was decoded against. *)
Theorem decoded_offsets_not_negative (offset : string)
    (cu : SlitherCompilationUnit.t) (a : Source.t) :
  _convert_source_mapping offset cu = Ok a ->
  0 <= Source.start a /\ 0 <= Source.length a /\ 0 <= Source.end_ a
  /\ Source.compilation_unit a = Some cu.
Proof.
  destruct (re_findall offset) as [|[[g1 g2] g3] [|g' rest]] eqn:E.
  - rewrite convert_not_single by (rewrite E; simpl; lia).
    intros [= <-]. simpl. repeat split; lia.
  - rewrite (convert_single offset cu g1 g2 g3 E).
    destruct (single_match_shape _ _ E) as (D1 & D2 & sign & d & D3 & ->).
    destruct (py_int_digits g1 D1) as [[-> _]|(_ & _ & -> & H1)]; [discriminate|].
    destruct (py_int_digits g2 D2) as [[-> _]|(_ & _ & -> & H2)]; [discriminate|].
    destruct (py_int_file_group_cases sign d D3) as [[-> _]|(_ & _ & ->)];
      [discriminate|]. simpl.
    destruct (SlitherCompilationUnit.source_units cu !! signed_value sign d).
    + destruct (SlitherCore.crytic_compile (SlitherCompilationUnit.core cu));
        [|discriminate].
      destruct (_compute_line _ _ _ _) as [[[ls sc] ec]|]; [|discriminate].
      simpl. intros [= <-]. simpl. repeat split; lia.
    + intros [= <-]. simpl. repeat split; lia.
  - rewrite convert_not_single by (rewrite E; simpl; lia).
    intros [= <-]. simpl. repeat split; lia.
Qed.

Lemma decoded_offsets_not_negative_witness :
  0 <= Source.start demo_span /\ 0 <= Source.length demo_span
  /\ 0 <= Source.end_ demo_span
  /\ Source.compilation_unit demo_span = Some demo_cu.
Proof.
  apply (decoded_offsets_not_negative "9:8:0" demo_cu demo_span). reflexivity.
Defined.

(** X2. The decoder raises nothing but [ValueError], [AssertionError],
    [KeyError] and the [SlitherException] of a stale build. *)
Theorem decoder_exceptions (offset : string) (cu : SlitherCompilationUnit.t)
    (e : exn) :
  _convert_source_mapping offset cu = Raise e ->
  e = ValueError \/ e = AssertionError \/ e = KeyError
  \/ exists short, e = SlitherException (stale_msg short).
Proof.
  destruct (re_findall offset) as [|[[g1 g2] g3] [|g' rest]] eqn:E.
  - rewrite convert_not_single by (rewrite E; simpl; lia). discriminate.
  - rewrite (convert_single offset cu g1 g2 g3 E).
    destruct (single_match_shape _ _ E) as (D1 & D2 & sign & d & D3 & ->).
    destruct (py_int_digits g1 D1) as [[-> _]|(_ & _ & -> & H1)];
      [intros [= <-]; auto|].
    destruct (py_int_digits g2 D2) as [[-> _]|(_ & _ & -> & H2)];
      [intros [= <-]; auto|].
    destruct (py_int_file_group_cases sign d D3) as [[-> _]|(_ & _ & ->)];
      [intros [= <-]; auto|]. simpl.
    destruct (SlitherCompilationUnit.source_units cu !! signed_value sign d);
      [|discriminate].
    destruct (SlitherCore.crytic_compile (SlitherCompilationUnit.core cu))
      as [cc|] eqn:Hcc; [|intros [= <-]; auto].
    unfold _compute_line. rewrite Hcc.
    destruct (CryticCompile.get_line_from_offset cc _ _) as [[sl sc]|];
      [|intros [= <-]; auto].
    destruct (CryticCompile.get_line_from_offset cc _ _) as [[el ec]|];
      [discriminate|].
    intros [= <-]. right. right. right. eauto.
  - rewrite convert_not_single by (rewrite E; simpl; lia). discriminate.
Qed.

Lemma decoder_exceptions_witness :
  ValueError = ValueError \/ ValueError = AssertionError \/ ValueError = KeyError
  \/ exists short, ValueError = SlitherException (stale_msg short).
Proof.
  apply (decoder_exceptions "1:2:" demo_cu ValueError). reflexivity.
Defined.

(** X3. The decoder raises [ValueError] exactly when the pattern is found
    once with a group that [int] rejects: a start, a length or a file index
    whose digits, the minus sign of the index aside, are none at all or more
    than the interpreter's limit of 4300. *)
Theorem value_error_iff_rejected_group (offset : string)
    (cu : SlitherCompilationUnit.t) :
  _convert_source_mapping offset cu = Raise ValueError <->
  exists g1 g2 g3,
    re_findall offset = [(g1, g2, g3)]
    /\ (rejected_digits g1 = true \/ rejected_digits g2 = true
        \/ rejected_digits (group_digits g3) = true).
Proof.
  split.
  - destruct (re_findall offset) as [|[[g1 g2] g3] [|g' rest]] eqn:E.
    + rewrite convert_not_single by (rewrite E; simpl; lia). discriminate.
    + rewrite (convert_single offset cu g1 g2 g3 E). intros H.
      exists g1, g2, g3. split; [reflexivity|].
      destruct (single_match_shape _ _ E) as (D1 & D2 & sign & d & D3 & ->).
      rewrite (group_digits_file_group sign d D3), !rejected_digits_spec.
      destruct (py_int_digits g1 D1) as [[_ R1]|(_ & _ & E1 & _)]; [auto|].
      destruct (py_int_digits g2 D2) as [[_ R2]|(_ & _ & E2 & _)]; [auto|].
      destruct (py_int_file_group_cases sign d D3) as [[_ R3]|(_ & _ & E3)];
        [auto|].
      rewrite E1, E2, E3 in H. simpl in H. exfalso.
      destruct (SlitherCompilationUnit.source_units cu !! signed_value sign d);
        [|discriminate].
      destruct (SlitherCore.crytic_compile (SlitherCompilationUnit.core cu))
        as [cc|] eqn:Hcc; [|discriminate].
      unfold _compute_line in H. rewrite Hcc in H.
      destruct (CryticCompile.get_line_from_offset cc _ _) as [[sl sc]|];
        [|discriminate].
      destruct (CryticCompile.get_line_from_offset cc _ _) as [[el ec]|];
        discriminate.
    + rewrite convert_not_single by (rewrite E; simpl; lia). discriminate.
  - intros (g1 & g2 & g3 & E & Hrej).
    rewrite (convert_single offset cu g1 g2 g3 E).
    destruct (single_match_shape _ _ E) as (D1 & D2 & sign & d & D3 & ->).
    rewrite (group_digits_file_group sign d D3), !rejected_digits_spec in Hrej.
    destruct (py_int_digits g1 D1) as [[-> _]|(N1 & L1 & -> & _)]; [reflexivity|].
    destruct (py_int_digits g2 D2) as [[-> _]|(N2 & L2 & -> & _)]; [reflexivity|].
    destruct (py_int_file_group_cases sign d D3) as [[-> _]|(N3 & L3 & _)];
      [reflexivity|].
    destruct Hrej as [[?|?] | [[?|?] | [?|?]]]; congruence.
Qed.

(** ** Text around a triple *)

Lemma match_here_no_start (c : ascii) (t : string) :
  is_digit c = false -> Ascii.eqb c colon = false ->
  match_here (String c t) = None.
Proof.
  intros Hd Hc. unfold match_here. simpl. now rewrite Hd, Hc.
Qed.

Lemma re_findall_skip_prefix (p s : string) :
  no_digit_no_colon p = true -> re_findall (p +:+ s) = re_findall s.
Proof.
  induction p as [|c p IH]; simpl_app; [reflexivity|]. simpl.
  intros [[Hd Hc]%andb_prop Hp]%andb_prop.
  apply negb_true_iff in Hd, Hc.
  rewrite re_findall_step, match_here_no_start by assumption. now apply IH.
Qed.

Lemma not_digit_head (q : string) :
  starts_with_digit q = false ->
  match q with EmptyString => True | String c _ => is_digit c = false end.
Proof. now destruct q. Qed.

Lemma string_app_assoc (a b c : string) : (a +:+ b) +:+ c = a +:+ (b +:+ c).
Proof. induction a as [|x a IH]; simpl_app; [reflexivity|now rewrite IH]. Qed.

Lemma match_here_encoding_suffix (g1 g2 g3 q : string) (sign : bool) :
  all_digits g1 = true -> all_digits g2 = true -> is_number g3 = true ->
  starts_with_digit q = false ->
  match_here (encoding g1 g2 (file_group sign g3) +:+ q)
  = Some ((g1, g2, file_group sign g3), q).
Proof.
  intros H1 H2 [H3 Hne]%andb_prop Hq. apply not_digit_head in Hq.
  unfold match_here, encoding.
  rewrite string_app_assoc. simpl_app.
  rewrite (span_digits_app g1) by (auto; reflexivity). simpl.
  rewrite string_app_assoc. simpl_app.
  rewrite (span_digits_app g2) by (auto; reflexivity). simpl.
  destruct g3 as [|c g3]; [discriminate|].
  assert (Hc : is_digit c = true) by (simpl in H3; now apply andb_prop in H3).
  destruct sign; unfold file_group; simpl_app.
  - change (Ascii.eqb minus minus) with true. cbv iota.
    rewrite <- string_app_cons. now rewrite (span_digits_app (String c g3) q).
  - destruct (Ascii.eqb_spec c minus) as [->|_]; [discriminate|].
    rewrite <- string_app_cons. now rewrite (span_digits_app (String c g3) q).
Qed.

(** X4. Text around a triple is ignored: with, before the triple, characters
    that are neither digits nor colons and, after it, text that does not
    begin with a digit and holds fewer than two colons, the decoder gives
    what it gives for the triple alone. *)
Theorem surrounding_text_ignored (cu : SlitherCompilationUnit.t)
    (p q g1 g2 g3 : string) (sign : bool) :
  all_digits g1 = true -> all_digits g2 = true -> is_number g3 = true ->
  no_digit_no_colon p = true ->
  starts_with_digit q = false -> (count_colons q < 2)%nat ->
  _convert_source_mapping (p +:+ encoding g1 g2 (file_group sign g3) +:+ q) cu
  = _convert_source_mapping (encoding g1 g2 (file_group sign g3)) cu.
Proof.
  intros H1 H2 H3 Hp Hq Hcolons.
  assert (H3' : all_digits g3 = true) by (now apply andb_prop in H3).
  unfold _convert_source_mapping.
  rewrite re_findall_skip_prefix by assumption.
  rewrite re_findall_step, match_here_encoding_suffix by assumption.
  rewrite (re_findall_few_colons q) by assumption.
  now rewrite re_findall_encoding by assumption.
Qed.

Lemma surrounding_text_ignored_witness :
  _convert_source_mapping "src=9:8:0;" demo_cu
  = _convert_source_mapping "9:8:0" demo_cu.
Proof.
  apply (surrounding_text_ignored demo_cu "src=" ";" "9" "8" "0" false);
    first [reflexivity | simpl; lia].
Defined.

(** ** Decimal numbers *)

Lemma digit_char_spec (d : Z) :
  0 <= d < 10 ->
  is_digit (digit_char d) = true /\ digit_value (digit_char d) = d.
Proof.
  intros Hd. unfold is_digit, digit_value, digit_char.
  rewrite nat_ascii_embedding by lia. rewrite Z2Nat.id by lia. split; lia.
Qed.

Lemma str_nat_spec (n : Z) :
  0 <= n ->
  all_digits (str_nat n) = true /\ str_nat n <> EmptyString
  /\ digits_value 0 (str_nat n) = n.
Proof.
  funelim (str_nat n); intros Hn.
  - destruct (digit_char_spec n ltac:(lia)) as [Hd Hv].
    simpl. rewrite Hd, Hv. split; [reflexivity|]. split; [discriminate|lia].
  - destruct (H ltac:(Z.div_mod_to_equations; lia)) as (Ha & Hne & Hv).
    destruct (digit_char_spec (n mod 10) ltac:(Z.div_mod_to_equations; lia))
      as [Hd Hm].
    rewrite all_digits_app, digits_value_app, Ha, Hv. simpl. rewrite Hd, Hm.
    split; [reflexivity|]. split.
    + destruct (str_nat (n / 10)); [contradiction|discriminate].
    + Z.div_mod_to_equations; lia.
Qed.

Lemma str_nat_number (n : Z) : 0 <= n -> is_number (str_nat n) = true.
Proof.
  intros Hn. destruct (str_nat_spec n Hn) as (Ha & Hne & _).
  unfold is_number. rewrite Ha. simpl.
  destruct (String.eqb_spec (str_nat n) EmptyString); [contradiction|reflexivity].
Qed.

(** The digits of a number below [10 ^ k] are at most [k]. *)
Lemma str_nat_length (n : Z) :
  forall k : nat,
    (1 <= k)%nat -> 0 <= n < 10 ^ Z.of_nat k ->
    (String.length (str_nat n) <= k)%nat.
Proof.
  funelim (str_nat n); intros k Hk Hn.
  - simpl. lia.
  - rewrite string_length_app. simpl.
    destruct k as [|[|k]]; [lia| |].
    + change (10 ^ Z.of_nat 1) with 10 in Hn. lia.
    + assert (Hq : (String.length (str_nat (n / 10)) <= S k)%nat).
      { apply H; [lia|]. split; [Z.div_mod_to_equations; lia|].
        apply Z.div_lt_upper_bound; [lia|].
        rewrite (Nat2Z.inj_succ (S k)), Z.pow_succ_r in Hn by lia. lia. }
      lia.
Qed.

(** The digits of a number from [10 ^ k] on are more than [k]. *)
Lemma str_nat_length_lower (n : Z) :
  forall k : nat, 10 ^ Z.of_nat k <= n -> (k < String.length (str_nat n))%nat.
Proof.
  funelim (str_nat n); intros k Hn.
  - simpl. destruct k as [|k]; [lia|].
    rewrite Nat2Z.inj_succ, Z.pow_succ_r in Hn by lia.
    assert (0 < 10 ^ Z.of_nat k) by (apply Z.pow_pos_nonneg; lia). lia.
  - rewrite string_length_app. simpl.
    destruct k as [|k]; [lia|].
    assert (Hq : (k < String.length (str_nat (n / 10)))%nat).
    { apply H. apply Z.div_le_lower_bound; [lia|].
      rewrite Nat2Z.inj_succ, Z.pow_succ_r in Hn by lia. lia. }
    lia.
Qed.

(** What [str] gives when it gives a string: the digits of the absolute
    value, after a minus sign for a negative number; [int] converts them. *)
Lemma py_str_shape (z : Z) (t : string) :
  py_str z = Ok t ->
  exists sign d,
    t = file_group sign d /\ is_decimal d = true /\ signed_value sign d = z
    /\ (0 <= z -> sign = false /\ digits_value 0 d = z).
Proof.
  unfold py_str.
  destruct (within_digit_limit (str_nat (Z.abs z))) eqn:Hlim; [|discriminate].
  intros [= <-].
  destruct (str_nat_spec (Z.abs z) ltac:(lia)) as (_ & _ & Hv).
  assert (Hd : is_decimal (str_nat (Z.abs z)) = true).
  { unfold is_decimal. rewrite str_nat_number by lia. exact Hlim. }
  destruct (Z.ltb_spec z 0).
  - exists true, (str_nat (Z.abs z)). unfold signed_value.
    rewrite Hv. repeat split; try assumption; lia.
  - exists false, (str_nat (Z.abs z)). unfold signed_value.
    rewrite Hv. repeat split; try assumption; lia.
Qed.

(** [str] writes every number of at most 4300 digits. *)
Lemma py_str_below_limit (z : Z) :
  Z.abs z < 10 ^ int_max_str_digits -> exists t, py_str z = Ok t.
Proof.
  intros Hz. unfold py_str.
  assert (Hlen : (String.length (str_nat (Z.abs z)) <= 4300)%nat).
  { apply str_nat_length; [lia|]. split; [lia|].
    unfold int_max_str_digits in Hz.
    replace (Z.of_nat 4300) with 4300 by lia. exact Hz. }
  unfold within_digit_limit, int_max_str_digits.
  destruct (Z.leb_spec (Z.of_nat (String.length (str_nat (Z.abs z)))) 4300);
    [eauto|lia].
Qed.

(** [str] refuses the numbers of more than 4300 digits, and these only. *)
Lemma py_str_limit (z : Z) :
  py_str z = Raise ValueError <-> 10 ^ int_max_str_digits <= Z.abs z.
Proof.
  split.
  - intros Hr. destruct (Z_lt_le_dec (Z.abs z) (10 ^ int_max_str_digits)) as [Hlt|Hle];
      [|exact Hle].
    destruct (py_str_below_limit z Hlt) as [t Ht]. congruence.
  - intros Hle. unfold py_str.
    pose proof (str_nat_length_lower (Z.abs z) 4300) as Hlen.
    unfold int_max_str_digits in Hle.
    replace (Z.of_nat 4300) with 4300 in Hlen by lia. specialize (Hlen Hle).
    unfold within_digit_limit, int_max_str_digits.
    destruct (Z.leb_spec (Z.of_nat (String.length (str_nat (Z.abs z)))) 4300);
      [lia|reflexivity].
Qed.

(** [int] undoes [str]. *)
Lemma py_int_py_str (z : Z) (t : string) : py_str z = Ok t -> py_int t = Ok z.
Proof.
  intros (sign & d & -> & Hd & Hv & _)%py_str_shape.
  rewrite (py_int_file_group sign d Hd). now f_equal.
Qed.

(** X5. A triple written with [str] is decoded to its numbers: for a start
    and a length that are not negative and any file index, all three within
    the 4300 digits that [str] writes, the encoding [str(s):str(l):str(f)]
    gives the span of the unknown file with start [s] and length [l] when [f]
    is not in the table, and otherwise goes on to the line index of the file
    of [f] with the offsets [s] and [s + l] and gives a span with
    [start = s], [length = l] and [end = s + l]. *)
Theorem decode_of_str (cu : SlitherCompilationUnit.t) (s l f : Z)
    (ts tl tf : string) :
  0 <= s -> 0 <= l ->
  py_str s = Ok ts -> py_str l = Ok tl -> py_str f = Ok tf ->
  _convert_source_mapping (encoding ts tl tf) cu =
  match SlitherCompilationUnit.source_units cu !! f with
  | None => Ok (unresolved cu s l)
  | Some filename_used =>
      match SlitherCore.crytic_compile (SlitherCompilationUnit.core cu) with
      | None => Raise AssertionError
      | Some cc =>
          let filename := CryticCompile.filename_lookup cc filename_used in
          '(lines, starting_column, ending_column) ←
            _compute_line cu filename s l;
          Ok {| Source.start := s;
                Source.length := l;
                Source.filename := filename;
                Source.is_dependency :=
                  CryticCompile.is_dependency cc (Filename.absolute filename);
                Source.lines := lines;
                Source.starting_column := starting_column;
                Source.ending_column := ending_column;
                Source.end_ := s + l;
                Source.compilation_unit := Some cu |}
      end
  end.
Proof.
  intros Hs Hl Hts Htl Htf.
  apply py_str_shape in Hts as (sg1 & d1 & -> & Hd1 & _ & H1).
  apply py_str_shape in Htl as (sg2 & d2 & -> & Hd2 & _ & H2).
  apply py_str_shape in Htf as (sign & d & -> & Hd & Hf & _).
  destruct (H1 Hs) as [-> Hv1]. destruct (H2 Hl) as [-> Hv2].
  unfold file_group at 1 2.
  rewrite (convert_wellformed cu d1 d2 d sign Hd1 Hd2 Hd).
  now rewrite Hv1, Hv2, Hf.
Qed.

Lemma decode_of_str_witness :
  _convert_source_mapping (encoding "10" "5" "-1") demo_cu
  = Ok (unresolved demo_cu 10 5).
Proof.
  exact (decode_of_str demo_cu 10 5 (-1) "10" "5" "-1" ltac:(lia) ltac:(lia)
           eq_refl eq_refl eq_refl).
Defined.

(** ** More on [_compute_line] *)

Lemma py_range_single (a : Z) : py_range a (a + 1) = [a].
Proof.
  unfold py_range. replace (a + 1 - a) with 1 by lia. simpl. f_equal. lia.
Qed.

(** X6. A range of length zero has one lookup to make: [_compute_line] gives
    the one line of the offset with the same column at both ends, or the
    [KeyError] of the first lookup when the offset is unknown; it never
    raises the [SlitherException]. *)
Theorem compute_line_zero_length (cu : SlitherCompilationUnit.t)
    (cc : CryticCompile.t) (file : Filename.t) (s : Z) :
  SlitherCore.crytic_compile (SlitherCompilationUnit.core cu) = Some cc ->
  _compute_line cu file s 0 =
  match CryticCompile.get_line_from_offset cc file s with
  | Some (line, col) => Ok ([line], col, col)
  | None => Raise KeyError
  end.
Proof.
  intros Hcc. unfold _compute_line. rewrite Hcc, Z.add_0_r.
  destruct (CryticCompile.get_line_from_offset cc file s) as [[line col]|];
    [|reflexivity].
  now rewrite py_range_single.
Qed.

Lemma compute_line_zero_length_witness :
  _compute_line demo_cu demo_file 9 0 = Ok ([2], 1, 1).
Proof.
  exact (compute_line_zero_length demo_cu demo_cc demo_file 9 eq_refl).
Defined.

(** X7. [_compute_line] does not check that the end is after the start: when
    both lookups succeed it returns the lines from the line of the start to
    the line of the end, [end_line - start_line + 1] of them, and no line at
    all, without an exception, when the line of the end is before the line
    of the start. *)
Theorem compute_line_count (cu : SlitherCompilationUnit.t)
    (cc : CryticCompile.t) (file : Filename.t) (s l sl sc el ec : Z) :
  SlitherCore.crytic_compile (SlitherCompilationUnit.core cu) = Some cc ->
  CryticCompile.get_line_from_offset cc file s = Some (sl, sc) ->
  CryticCompile.get_line_from_offset cc file (s + l) = Some (el, ec) ->
  exists lines,
    _compute_line cu file s l = Ok (lines, sc, ec)
    /\ Z.of_nat (List.length lines) = Z.max 0 (el - sl + 1)
    /\ (lines = [] <-> el < sl)
    /\ (forall (i : nat) (x : Z), lines !! i = Some x -> x = sl + Z.of_nat i).
Proof.
  intros Hcc Hs He. unfold _compute_line. rewrite Hcc, Hs, He.
  eexists. split; [reflexivity|]. split; [|split].
  - rewrite py_range_length. lia.
  - split.
    + intros Hnil. apply (f_equal List.length) in Hnil.
      rewrite py_range_length in Hnil. simpl in Hnil. lia.
    + intros Hlt. unfold py_range. replace (Z.to_nat _) with 0%nat by lia.
      reflexivity.
  - intros i x Hx. now apply py_range_lookup in Hx.
Qed.

Lemma compute_line_count_witness :
  exists lines,
    _compute_line demo_cu demo_file 0 22 = Ok (lines, 1, 14)
    /\ Z.of_nat (List.length lines) = Z.max 0 (2 - 1 + 1)
    /\ (lines = [] <-> 2 < 1)
    /\ (forall (i : nat) (x : Z), lines !! i = Some x -> x = 1 + Z.of_nat i).
Proof.
  exact (compute_line_count demo_cu demo_cc demo_file 0 22 1 1 2 14
           eq_refl eq_refl eq_refl).
Defined.

(** ** Equality of spans *)

Lemma span_eq_fields (a b : Source.t) :
  span_eq a b <->
  Source.start a = Source.start b
  /\ Filename.relative (Source.filename a) = Filename.relative (Source.filename b)
  /\ Source.is_dependency a = Source.is_dependency b
  /\ Source.end_ a = Source.end_ b.
Proof.
  unfold span_eq. rewrite eq_between_spans. split.
  - intros [= H]. apply andb_prop in H as [H He]. apply andb_prop in H as [H Hd].
    apply andb_prop in H as [Hs Hr].
    apply Z.eqb_eq in Hs, He. apply String.eqb_eq in Hr.
    apply Bool.eqb_prop in Hd. auto.
  - intros (-> & -> & -> & ->).
    now rewrite !Z.eqb_refl, String.eqb_refl, Bool.eqb_reflx.
Qed.

(** X8. On spans, [__eq__] is an equivalence: every span equals itself, the
    comparison does not depend on the side, and it is transitive; spans that
    differ in their length, lines, columns, other file names or compilation
    unit only are equal. *)
Theorem span_eq_equivalence :
  (forall a, span_eq a a)
  /\ (forall a b, span_eq a b -> span_eq b a)
  /\ (forall a b c, span_eq a b -> span_eq b c -> span_eq a c)
  /\ (forall a l ls sc ec cu fa fu fs,
        span_eq a {| Source.start := Source.start a;
                     Source.length := l;
                     Source.filename :=
                       Filename.Make fa fu
                         (Filename.relative (Source.filename a)) fs;
                     Source.is_dependency := Source.is_dependency a;
                     Source.lines := ls;
                     Source.starting_column := sc;
                     Source.ending_column := ec;
                     Source.end_ := Source.end_ a;
                     Source.compilation_unit := cu |}).
Proof.
  repeat split.
  - intros a. now apply span_eq_fields.
  - intros a b (H1 & H2 & H3 & H4)%span_eq_fields. apply span_eq_fields. auto.
  - intros a b c (H1 & H2 & H3 & H4)%span_eq_fields
                 (K1 & K2 & K3 & K4)%span_eq_fields.
    apply span_eq_fields. repeat split; congruence.
  - intros. now apply span_eq_fields.
Qed.

(** X9. Two equal spans are given the same tuple by [__hash__] exactly when
    their lengths agree; in that case their hashes are equal for any
    [hash]. *)
Theorem equal_spans_hash_key (a b : Source.t) :
  span_eq a b ->
  (Source.hash_key a = Source.hash_key b <-> Source.length a = Source.length b)
  /\ (Source.length a = Source.length b ->
      forall hash, Source.__hash__ hash a = Source.__hash__ hash b).
Proof.
  intros (Hs & Hr & _ & He)%span_eq_fields.
  assert (Hiff : Source.hash_key a = Source.hash_key b
                 <-> Source.length a = Source.length b).
  { unfold Source.hash_key. rewrite Hs, Hr, He. split.
    - now intros [= ->].
    - now intros ->. }
  split; [exact Hiff|].
  intros Hl hash. unfold Source.__hash__. f_equal. now apply Hiff.
Qed.

Lemma equal_spans_hash_key_witness :
  (Source.hash_key (unresolved demo_cu 10 5) = Source.hash_key (unresolved demo_cu 10 7)
   <-> 5 = 7)
  /\ (5 = 7 ->
      forall hash, Source.__hash__ hash (unresolved demo_cu 10 5)
                   = Source.__hash__ hash (unresolved demo_cu 10 7)).
Proof.
  exact (equal_spans_hash_key (unresolved demo_cu 10 5) (unresolved demo_cu 10 7)
           eq_refl).
Defined.

(** ** [to_json] *)

Lemma map_PyInt_inj (l1 l2 : list Z) : map PyInt l1 = map PyInt l2 -> l1 = l2.
Proof.
  revert l2. induction l1 as [|x l1 IH]; intros [|y l2]; simpl;
    try discriminate; [reflexivity|].
  intros [= -> H]. f_equal. now apply IH.
Qed.

(** X10. The dictionary of [to_json] determines the start, the length, the
    relative, absolute and short file names, the dependency flag, the lines
    and the two columns of a span, and nothing else: [end] and the
    compilation unit are not exported.  Hence two spans with the same
    dictionary are equal for [__eq__] as soon as their [end] agree, for
    instance when both satisfy [end = start + length]. *)
Theorem to_json_determines (a b : Source.t) :
  (Source.to_json a = Source.to_json b <->
     Source.start a = Source.start b
     /\ Source.length a = Source.length b
     /\ Filename.relative (Source.filename a) = Filename.relative (Source.filename b)
     /\ Filename.absolute (Source.filename a) = Filename.absolute (Source.filename b)
     /\ Filename.short (Source.filename a) = Filename.short (Source.filename b)
     /\ Source.is_dependency a = Source.is_dependency b
     /\ Source.lines a = Source.lines b
     /\ Source.starting_column a = Source.starting_column b
     /\ Source.ending_column a = Source.ending_column b)
  /\ (Source.to_json a = Source.to_json b ->
      end_invariant a -> end_invariant b ->
      span_eq a b /\ Source.hash_key a = Source.hash_key b).
Proof.
  assert (Hfields : Source.to_json a = Source.to_json b ->
     Source.start a = Source.start b
     /\ Source.length a = Source.length b
     /\ Filename.relative (Source.filename a) = Filename.relative (Source.filename b)
     /\ Filename.absolute (Source.filename a) = Filename.absolute (Source.filename b)
     /\ Filename.short (Source.filename a) = Filename.short (Source.filename b)
     /\ Source.is_dependency a = Source.is_dependency b
     /\ Source.lines a = Source.lines b
     /\ Source.starting_column a = Source.starting_column b
     /\ Source.ending_column a = Source.ending_column b).
  { unfold Source.to_json. intros [= H1 H2 H3 H4 H5 H6 H7 H8 H9].
    apply map_PyInt_inj in H7. repeat split; assumption. }
  split; [split; [exact Hfields|]|].
  - intros (H1 & H2 & H3 & H4 & H5 & H6 & H7 & H8 & H9).
    unfold Source.to_json. now rewrite H1, H2, H3, H4, H5, H6, H7, H8, H9.
  - intros Hj Ha Hb.
    destruct (Hfields Hj) as (H1 & H2 & H3 & _ & _ & H6 & _).
    unfold end_invariant in Ha, Hb.
    assert (He : Source.end_ a = Source.end_ b) by lia.
    split; [now apply span_eq_fields|].
    unfold Source.hash_key. now rewrite H1, H2, H3, He.
Qed.

(** ** More on [content] *)

(** X11. [content] never fails on offsets that are out of range: for a span
    bound to a compilation unit that has the text of its file, with offsets
    that are not negative, an end at or before the start, or a start at or
    after the last byte of the file, gives the empty text. *)
Theorem content_empty_range (self : Source.t) (cu : SlitherCompilationUnit.t)
    (text bytes : list Z) :
  Source.compilation_unit self = Some cu ->
  SlitherCore.source_code (SlitherCompilationUnit.core cu)
    !! Filename.absolute (Source.filename self) = Some text ->
  utf8_encode text = Ok bytes ->
  0 <= Source.start self -> 0 <= Source.end_ self ->
  Source.end_ self <= Source.start self
  \/ Z.of_nat (List.length bytes) <= Source.start self ->
  Source.content self = Ok [].
Proof.
  intros Hcu Htext Hb Hs He Hrange. unfold Source.content.
  rewrite Hcu, Htext, Hb. simpl. rewrite py_slice_nonneg by assumption.
  destruct Hrange as [Hcross|Hbeyond].
  - replace (Z.to_nat _) with 0%nat by lia. reflexivity.
  - rewrite drop_ge by lia. now rewrite take_nil.
Qed.

Lemma content_empty_range_witness :
  Source.content (demo_span_at 100 5) = Ok [].
Proof.
  refine (content_empty_range (demo_span_at 100 5) demo_cu demo_text
            [47; 47; 32; 0xC3; 0xA9; 0xE2; 0x82; 0xAC; 10;
             99; 111; 110; 116; 114; 97; 99; 116; 32; 67; 32; 123; 125; 10]
            eq_refl eq_refl eq_refl _ _ _); simpl; lia.
Defined.

Lemma utf8_second_byte (c b0 b1 : Z) (tl : list Z) :
  utf8_encode_char c = Ok (b0 :: b1 :: tl) -> is_continuation b1 = true.
Proof.
  unfold utf8_encode_char, is_continuation.
  destruct (c <? 0); [discriminate|].
  destruct (c <? 0x80); [discriminate|].
  destruct (c <? 0x800).
  { intros [= _ <- _]. apply andb_true_intro.
    split; [apply Z.leb_le|apply Z.leb_le]; Z.div_mod_to_equations; lia. }
  destruct (c <? 0x10000).
  { destruct (is_surrogate c); [discriminate|]. intros [= _ <- _].
    apply andb_true_intro.
    split; [apply Z.leb_le|apply Z.leb_le]; Z.div_mod_to_equations; lia. }
  destruct (c <? 0x110000); [|discriminate].
  intros [= _ <- _]. apply andb_true_intro.
  split; [apply Z.leb_le|apply Z.leb_le]; Z.div_mod_to_equations; lia.
Qed.

Lemma utf8_decode_stray (b : Z) (rest : list Z) :
  is_continuation b = true -> utf8_decode (b :: rest) = Raise UnicodeDecodeError.
Proof.
  unfold is_continuation. intros [H0 H1]%andb_prop.
  apply Z.leb_le in H0, H1. cbn [utf8_decode].
  destruct (Z.ltb_spec b 0x80); [lia|]. rewrite andb_false_r.
  destruct (Z.leb_spec 0xC0 b); [lia|]. cbn [andb].
  destruct (Z.leb_spec 0xE0 b); [lia|]. cbn [andb].
  destruct (Z.leb_spec 0xF0 b); [lia|]. reflexivity.
Qed.

(** X12. A span that starts on the second byte of a character of several
    bytes, and is not empty, has no content: [content] raises
    [UnicodeDecodeError]. *)
Theorem content_inside_character (self : Source.t) (cu : SlitherCompilationUnit.t)
    (before after bbefore bafter tl : list Z) (c b0 b1 : Z) :
  Source.compilation_unit self = Some cu ->
  SlitherCore.source_code (SlitherCompilationUnit.core cu)
    !! Filename.absolute (Source.filename self) = Some (before ++ c :: after) ->
  utf8_encode before = Ok bbefore ->
  utf8_encode_char c = Ok (b0 :: b1 :: tl) ->
  utf8_encode after = Ok bafter ->
  Source.start self = Z.of_nat (List.length bbefore) + 1 ->
  Source.start self < Source.end_ self ->
  Source.content self = Raise UnicodeDecodeError.
Proof.
  intros Hcu Htext Hb Hc Ha Hstart Hend. unfold Source.content.
  rewrite Hcu, Htext, utf8_encode_app, Hb. simpl. rewrite Hc, Ha. simpl.
  rewrite py_slice_nonneg by lia. rewrite Hstart.
  replace (Z.to_nat (Z.of_nat (List.length bbefore) + 1))
    with (List.length bbefore + 1)%nat by lia.
  rewrite <- drop_drop, drop_app_length. simpl.
  destruct (Z.to_nat (Source.end_ self - (Z.of_nat (List.length bbefore) + 1)))
    as [|k] eqn:Ek; [lia|].
  simpl. apply utf8_decode_stray. now apply (utf8_second_byte c b0 b1 tl).
Qed.

Lemma content_inside_character_witness :
  Source.content (demo_span_at 4 2) = Raise UnicodeDecodeError.
Proof.
  refine (content_inside_character (demo_span_at 4 2) demo_cu
            (codepoints "// ") ([0x20AC; 10] ++ codepoints "contract C {}" ++ [10])
            [47; 47; 32]
            [0xE2; 0x82; 0xAC; 10;
             99; 111; 110; 116; 114; 97; 99; 116; 32; 67; 32; 123; 125; 10]
            [] 0xE9 0xC3 0xA9
            eq_refl eq_refl eq_refl eq_refl eq_refl _ _); simpl; lia.
Defined.

(** X13. Contents of adjacent spans concatenate: when a span ends where
    another of the same file begins, both on the boundaries of characters,
    the content of the span that covers both is the content of the first
    followed by the content of the second. *)
Theorem content_adjacent (s1 s2 s12 : Source.t) (cu : SlitherCompilationUnit.t)
    (before left right after bbefore bleft bright bafter : list Z) :
  Source.compilation_unit s1 = Some cu ->
  Source.compilation_unit s2 = Some cu ->
  Source.compilation_unit s12 = Some cu ->
  Source.filename s2 = Source.filename s1 ->
  Source.filename s12 = Source.filename s1 ->
  SlitherCore.source_code (SlitherCompilationUnit.core cu)
    !! Filename.absolute (Source.filename s1)
    = Some (before ++ left ++ right ++ after) ->
  utf8_encode before = Ok bbefore -> utf8_encode left = Ok bleft ->
  utf8_encode right = Ok bright -> utf8_encode after = Ok bafter ->
  Source.start s1 = Z.of_nat (List.length bbefore) ->
  Source.end_ s1 = Source.start s1 + Z.of_nat (List.length bleft) ->
  Source.start s2 = Source.end_ s1 ->
  Source.end_ s2 = Source.start s2 + Z.of_nat (List.length bright) ->
  Source.start s12 = Source.start s1 ->
  Source.end_ s12 = Source.end_ s2 ->
  Source.content s1 = Ok left /\ Source.content s2 = Ok right
  /\ Source.content s12 = Ok (left ++ right).
Proof.
  intros C1 C2 C12 F2 F12 Htext Eb El Er Ea S1 E1 S2 E2 S12 E12.
  assert (Elr : utf8_encode (left ++ right) = Ok (bleft ++ bright))
    by (now rewrite utf8_encode_app, El, Er).
  assert (Ebl : utf8_encode (before ++ left) = Ok (bbefore ++ bleft))
    by (now rewrite utf8_encode_app, Eb, El).
  assert (Era : utf8_encode (right ++ after) = Ok (bright ++ bafter))
    by (now rewrite utf8_encode_app, Er, Ea).
  split; [|split].
  - apply (content_on_boundaries s1 cu before left (right ++ after)
             bbefore bleft (bright ++ bafter)); auto.
  - apply (content_on_boundaries s2 cu (before ++ left) right after
             (bbefore ++ bleft) bright bafter); auto.
    + rewrite F2, Htext. now rewrite <- app_assoc.
    + rewrite length_app. lia.
  - apply (content_on_boundaries s12 cu before (left ++ right) after
             bbefore (bleft ++ bright) bafter); auto.
    + rewrite F12, Htext. now rewrite <- app_assoc.
    + lia.
    + rewrite length_app. lia.
Qed.

Lemma content_adjacent_witness :
  Source.content (demo_span_at 9 8) = Ok (codepoints "contract")
  /\ Source.content (demo_span_at 17 2) = Ok (codepoints " C")
  /\ Source.content (demo_span_at 9 10) = Ok (codepoints "contract" ++ codepoints " C").
Proof.
  apply (content_adjacent (demo_span_at 9 8) (demo_span_at 17 2)
           (demo_span_at 9 10) demo_cu
           (codepoints "// " ++ [0xE9; 0x20AC; 10]) (codepoints "contract")
           (codepoints " C") (codepoints " {}" ++ [10])
           [47; 47; 32; 0xC3; 0xA9; 0xE2; 0x82; 0xAC; 10] (codepoints "contract")
           (codepoints " C") (codepoints " {}" ++ [10])); reflexivity.
Defined.

(** ** Printing a span *)

Lemma or_empty_id (x : string) : Source.or_empty x = x.
Proof.
  unfold Source.or_empty. now destruct (String.eqb_spec x EmptyString) as [->|].
Qed.

Lemma last_py_range (a b d : Z) : a < b -> List.last (py_range a b) d = b - 1.
Proof.
  intros Hab. pose proof (py_range_last a b Hab) as H.
  rewrite last_lookup in H.
  destruct (py_range a b) as [|x l] eqn:E using rev_ind; [discriminate|].
  rewrite List.last_last. rewrite length_app in H. simpl in H.
  replace (Nat.pred (List.length l + 1)) with (List.length l) in H by lia.
  rewrite lookup_app_r in H by lia. rewrite Nat.sub_diag in H.
  now injection H.
Qed.

(** The line suffix for the lines from [sl] to [el]. *)
Lemma lines_str_of_range (self : Source.t) (cu : SlitherCompilationUnit.t)
    (descr : string) (sl el : Z) (tsl tel : string) :
  Source.compilation_unit self = Some cu ->
  Source.lines self = py_range sl (el + 1) ->
  sl <= el ->
  py_str sl = Ok tsl -> py_str el = Ok tel ->
  Source._get_lines_str self descr =
  Ok (SlitherCore.line_prefix (SlitherCompilationUnit.core cu) +:+ descr
      +:+ tsl
      +:+ (if sl =? el then EmptyString
           else "-" +:+ descr +:+ tel)).
Proof.
  intros Hcu Hlines Hle Hpsl Hpel. unfold Source._get_lines_str.
  rewrite Hcu, Hlines.
  destruct (Z.eqb_spec sl el) as [->|Hne].
  - rewrite py_range_single, Hpsl. simpl. now rewrite string_app_nil_r.
  - pose proof (py_range_head sl (el + 1) ltac:(lia)) as Hh.
    pose proof (py_range_length sl (el + 1)) as Hlen.
    destruct (py_range sl (el + 1)) as [|x [|y rest]] eqn:E.
    + discriminate.
    + simpl in Hlen. lia.
    + simpl in Hh. injection Hh as ->.
      assert (Hl : List.last (y :: rest) sl = el).
      { pose proof (last_py_range sl (el + 1) sl ltac:(lia)) as Hl.
        rewrite E in Hl. simpl in Hl. simpl. rewrite Hl. lia. }
      now rewrite Hl, Hpsl, Hpel.
Qed.

Section PrintKnownFile.

Context (cu : SlitherCompilationUnit.t) (cc : CryticCompile.t)
        (ds dl g3 : string) (sign : bool) (used : string) (sl sc el ec : Z)
        (tsl tsc tel tec : string).
Hypothesis Hs : is_decimal ds = true.
Hypothesis Hl : is_decimal dl = true.
Hypothesis Hf : is_decimal g3 = true.
Hypothesis Hused :
  SlitherCompilationUnit.source_units cu !! signed_value sign g3 = Some used.
Hypothesis Hcc :
  SlitherCore.crytic_compile (SlitherCompilationUnit.core cu) = Some cc.
Hypothesis Hstart :
  CryticCompile.get_line_from_offset cc (CryticCompile.filename_lookup cc used)
    (digits_value 0 ds) = Some (sl, sc).
Hypothesis Hend :
  CryticCompile.get_line_from_offset cc (CryticCompile.filename_lookup cc used)
    (digits_value 0 ds + digits_value 0 dl) = Some (el, ec).
Hypothesis Hle : sl <= el.
Hypothesis Hpsl : py_str sl = Ok tsl.
Hypothesis Hpsc : py_str sc = Ok tsc.
Hypothesis Hpel : py_str el = Ok tel.
Hypothesis Hpec : py_str ec = Ok tec.

(** X14. The span decoded for a known file, from a triple of numbers of at
    most 4300 digits each, prints as the short name of the file, the line
    prefix of the compilation unit and the line of the start offset,
    followed, when the end offset is on a later line, by a dash and that
    line; [to_detailed_str] adds the two columns, and [to_markdown] uses the
    relative name and the letter L before each line.  The lines and the
    columns are written by [str], which is taken to succeed on them. *)
Theorem print_resolved_span :
  exists span,
    _convert_source_mapping (encoding ds dl (file_group sign g3)) cu = Ok span
    /\ Source.__str__ span =
       Ok (Filename.short (CryticCompile.filename_lookup cc used)
           +:+ SlitherCore.line_prefix (SlitherCompilationUnit.core cu)
           +:+ tsl
           +:+ (if sl =? el then "" else "-" +:+ tel))
    /\ Source.to_detailed_str span =
       Ok (Filename.short (CryticCompile.filename_lookup cc used)
           +:+ (SlitherCore.line_prefix (SlitherCompilationUnit.core cu)
                +:+ tsl
                +:+ (if sl =? el then "" else "-" +:+ tel))
           +:+ " (" +:+ tsc +:+ " - " +:+ tec +:+ ")")
    /\ forall root,
         Source.to_markdown span root =
         Ok (root +:+ Filename.relative (CryticCompile.filename_lookup cc used)
             +:+ SlitherCore.line_prefix (SlitherCompilationUnit.core cu)
             +:+ "L" +:+ tsl
             +:+ (if sl =? el then "" else "-L" +:+ tel)).
Proof using Hs Hl Hf Hused Hcc Hstart Hend Hle Hpsl Hpsc Hpel Hpec.
  rewrite (convert_wellformed cu ds dl g3 sign Hs Hl Hf), Hused, Hcc.
  unfold _compute_line. rewrite Hcc, Hstart, Hend.
  eexists. split; [reflexivity|].
  set (span := {| Source.start := _ |}).
  assert (Hd : forall descr, Source._get_lines_str span descr = _)
    by (intros descr;
        exact (lines_str_of_range span cu descr sl el tsl tel
                 eq_refl eq_refl Hle Hpsl Hpel)).
  unfold Source.__str__, Source.to_detailed_str, Source.to_markdown.
  rewrite !Hd, !or_empty_id. subst span. simpl. rewrite Hpsc, Hpec. simpl.
  split; [reflexivity|]. split; [reflexivity|].
  intros root. now destruct (sl =? el).
Qed.

End PrintKnownFile.

Lemma print_resolved_span_witness :
  exists span,
    _convert_source_mapping "0:22:0" demo_cu = Ok span
    /\ Source.__str__ span = Ok "a.sol#1-2"
    /\ Source.to_detailed_str span = Ok "a.sol#1-2 (1 - 14)"
    /\ forall root, Source.to_markdown span root = Ok (root +:+ "a.sol#L1-L2").
Proof.
  exact (print_resolved_span demo_cu demo_cc "0" "22" "0" false "a.sol" 1 1 2 14
           "1" "1" "2" "14"
           eq_refl eq_refl eq_refl eq_refl eq_refl eq_refl eq_refl ltac:(lia)
           eq_refl eq_refl eq_refl eq_refl).
Defined.

(** X15. A span that the decoder returns for malformed input (the pattern
    is not found exactly once) or for a file index that is not in the table
    prints as the empty string: its start and length are not shown.
    [to_detailed_str] gives the columns alone and [to_markdown] the root
    alone. *)
Theorem print_unresolved_span (offset : string) (cu : SlitherCompilationUnit.t)
    (a : Source.t) :
  _convert_source_mapping offset cu = Ok a ->
  List.length (re_findall offset) <> 1%nat
  \/ (exists g1 g2 g3 f,
        re_findall offset = [(g1, g2, g3)] /\ py_int g3 = Ok f
        /\ SlitherCompilationUnit.source_units cu !! f = None) ->
  Source.__str__ a = Ok ""
  /\ Source.to_detailed_str a = Ok " (0 - 0)"
  /\ forall root, Source.to_markdown a root = Ok root.
Proof.
  intros Ha Hcase.
  assert (Hshape : a = Source.__init__ (Some cu) \/ exists s l, a = unresolved cu s l).
  { destruct Hcase as [Hlen | (g1 & g2 & g3 & f & E & Hf & Habsent)].
    - rewrite convert_not_single in Ha by assumption. left. now injection Ha.
    - rewrite (convert_single offset cu g1 g2 g3 E) in Ha.
      destruct (py_int g1) as [s|]; [|discriminate].
      destruct (py_int g2) as [l|]; [|discriminate].
      rewrite Hf in Ha. simpl in Ha. rewrite Habsent in Ha.
      right. exists s, l. now injection Ha. }
  destruct Hshape as [-> | (s & l & ->)].
  - repeat split. intros root. unfold Source.to_markdown. simpl.
    now rewrite string_app_nil_r.
  - repeat split. intros root. unfold Source.to_markdown. simpl.
    now rewrite string_app_nil_r.
Qed.

Lemma print_unresolved_span_witness :
  Source.__str__ (unresolved demo_cu 10 5) = Ok ""
  /\ Source.to_detailed_str (unresolved demo_cu 10 5) = Ok " (0 - 0)"
  /\ forall root, Source.to_markdown (unresolved demo_cu 10 5) root = Ok root.
Proof.
  apply (print_unresolved_span "10:5:999" demo_cu (unresolved demo_cu 10 5)).
  - reflexivity.
  - right. now exists "10", "5", "999", 999.
Defined.

(** ** [SourceMapping] *)

Lemma set_compilation_unit_decoded (offset : string)
    (cu : SlitherCompilationUnit.t) (a : Source.t) :
  _convert_source_mapping offset cu = Ok a ->
  Source.set_compilation_unit a (Some cu) = a.
Proof.
  intros Ha.
  assert (Hcu : Source.compilation_unit a = Some cu).
  { unfold _convert_source_mapping in Ha.
    destruct (re_findall offset) as [|[[g1 g2] g3] [|g' rest]].
    - now injection Ha as <-.
    - destruct (py_int g1) as [s|]; [|discriminate].
      destruct (py_int g2) as [l|]; [|discriminate].
      destruct (py_int g3) as [f|]; [|discriminate]. simpl in Ha.
      destruct (SlitherCompilationUnit.source_units cu !! f).
      + destruct (SlitherCore.crytic_compile (SlitherCompilationUnit.core cu));
          [|discriminate].
        destruct (_compute_line _ _ _ _) as [[[ls sc] ec]|]; [|discriminate].
        simpl in Ha. now injection Ha as <-.
      + now injection Ha as <-.
    - now injection Ha as <-. }
  destruct a. simpl in *. unfold Source.set_compilation_unit. simpl.
  now rewrite Hcu.
Qed.

(** X16. [set_offset] with a span keeps the span by reference and writes
    the compilation unit into it: when two entities are given the same span,
    the second call changes the compilation unit that the first entity sees,
    and nothing else: the other fields of the span, the other spans of the
    store and the size of the store are as before. *)
Theorem set_offset_shares_span (e1 e2 : SourceMapping.t) (ref : nat)
    (span : Source.t) (cu1 cu2 : SlitherCompilationUnit.t)
    (store : list Source.t) :
  store !! ref = Some span ->
  exists e1' e2' store1 store2,
    SourceMapping.set_offset e1 (inl ref) (Some cu1) store = Ok (e1', store1)
    /\ SourceMapping.set_offset e2 (inl ref) (Some cu2) store1 = Ok (e2', store2)
    /\ SourceMapping.source_mapping e1' = Some ref
    /\ SourceMapping.source_mapping e2' = Some ref
    /\ store1 !! ref = Some (Source.set_compilation_unit span (Some cu1))
    /\ store2 !! ref = Some (Source.set_compilation_unit span (Some cu2))
    /\ List.length store2 = List.length store
    /\ forall r, r <> ref -> store2 !! r = store !! r.
Proof.
  intros Href. pose proof (lookup_lt_Some _ _ _ Href) as Hlt.
  unfold SourceMapping.set_offset. rewrite Href.
  do 2 eexists. eexists. eexists. split; [reflexivity|].
  rewrite list_lookup_insert_eq by assumption.
  split; [reflexivity|]. simpl.
  repeat split.
  - rewrite list_lookup_insert_eq by (rewrite length_insert; lia). reflexivity.
  - now rewrite !length_insert.
  - intros r Hr. now rewrite !list_lookup_insert_ne by congruence.
Qed.

(** Two entities on the span of the word "contract", the first of two
    spans of the store, one after the other with two compilation units: the
    first entity sees the unit of the second call, and the other span is as
    it was. *)
Lemma set_offset_shares_span_witness :
  exists e1' e2' store1 store2,
    SourceMapping.set_offset (SourceMapping.__init__ None) (inl 0%nat)
      (Some demo_cu) [demo_span; unresolved demo_cu 10 5] = Ok (e1', store1)
    /\ SourceMapping.set_offset (SourceMapping.__init__ None) (inl 0%nat)
         (Some demo_cu2) store1 = Ok (e2', store2)
    /\ SourceMapping.source_mapping e1' = Some 0%nat
    /\ SourceMapping.source_mapping e2' = Some 0%nat
    /\ store1 !! 0%nat
       = Some (Source.set_compilation_unit demo_span (Some demo_cu))
    /\ store2 !! 0%nat
       = Some (Source.set_compilation_unit demo_span (Some demo_cu2))
    /\ List.length store2 = List.length [demo_span; unresolved demo_cu 10 5]
    /\ forall r, r <> 0%nat ->
         store2 !! r = [demo_span; unresolved demo_cu 10 5] !! r.
Proof.
  exact (set_offset_shares_span (SourceMapping.__init__ None)
           (SourceMapping.__init__ None) 0 demo_span
           demo_cu demo_cu2 [demo_span; unresolved demo_cu 10 5] eq_refl).
Defined.

(** X17. [set_offset] with an encoding that the decoder accepts makes the
    decoded span, unchanged, the primary location of the entity, at a new
    reference: the references of the entity and the spans already in the
    store are as before.  An exception of the decoder leaves [set_offset] as
    it is. *)
Theorem set_offset_raw (e : SourceMapping.t) (raw : string)
    (cu : SlitherCompilationUnit.t) (store : list Source.t) :
  (forall span, _convert_source_mapping raw cu = Ok span ->
     exists e',
       SourceMapping.set_offset e (inr raw) (Some cu) store
       = Ok (e', store ++ [span])
       /\ SourceMapping.source_mapping e' = Some (List.length store)
       /\ (store ++ [span]) !! List.length store = Some span
       /\ SourceMapping.references e' = SourceMapping.references e
       /\ forall r x, store !! r = Some x -> (store ++ [span]) !! r = Some x)
  /\ (forall err, _convert_source_mapping raw cu = Raise err ->
        SourceMapping.set_offset e (inr raw) (Some cu) store = Raise err).
Proof.
  split.
  - intros span Hspan. unfold SourceMapping.set_offset. rewrite Hspan. simpl.
    rewrite (set_compilation_unit_decoded raw cu span Hspan).
    eexists. split; [reflexivity|]. simpl. repeat split.
    + rewrite lookup_app_r by lia. now rewrite Nat.sub_diag.
    + intros r x Hr. now apply lookup_app_l_Some.
  - intros err Herr. unfold SourceMapping.set_offset. now rewrite Herr.
Qed.

(** X18. References are appended in call order: after
    [add_reference_from_raw_source] has been called for each encoding of a
    list in turn, the store is the old store followed by the decoded spans in
    the order of the list, the references of the entity are the old
    references followed by the references of these spans, and the primary
    location is untouched. *)
Theorem add_references_in_order (offsets : list string)
    (cu : SlitherCompilationUnit.t) :
  forall (self self' : SourceMapping.t) (store store' : list Source.t),
    add_references self offsets (Some cu) store = Ok (self', store') ->
    exists news,
      store' = store ++ news
      /\ Forall2 (fun offset span => _convert_source_mapping offset cu = Ok span)
                 offsets news
      /\ SourceMapping.references self'
         = SourceMapping.references self
           ++ seq (List.length store) (List.length offsets)
      /\ SourceMapping.source_mapping self' = SourceMapping.source_mapping self.
Proof.
  induction offsets as [|offset rest IH]; intros self self' store store'.
  - simpl. intros [= <- <-]. exists []. rewrite !app_nil_r. repeat split.
    constructor.
  - cbn [add_references]. unfold SourceMapping.add_reference_from_raw_source.
    destruct (_convert_source_mapping offset cu) as [s|] eqn:Es; [|discriminate].
    simpl. intros H. apply IH in H as (news & -> & Hall & Hrefs & Hprim).
    exists (s :: news). simpl in *. repeat split.
    + now rewrite <- app_assoc.
    + now constructor.
    + rewrite Hrefs, <- app_assoc, length_app. simpl.
      now rewrite Nat.add_1_r.
    + exact Hprim.
Qed.

Lemma add_references_in_order_witness :
  exists news,
    [demo_span; unresolved demo_cu 10 5] = [] ++ news
    /\ Forall2 (fun offset span => _convert_source_mapping offset demo_cu = Ok span)
               ["9:8:0"; "10:5:999"] news
    /\ [0; 1]%nat = [] ++ seq (List.length (@nil Source.t)) 2
    /\ @None nat = None.
Proof.
  exact (add_references_in_order ["9:8:0"; "10:5:999"] demo_cu
           (SourceMapping.__init__ None)
           {| SourceMapping.source_mapping := None;
              SourceMapping.references := [0; 1]%nat;
              SourceMapping._pattern := None;
              SourceMapping.name := None |}
           [] [demo_span; unresolved demo_cu 10 5] eq_refl).
Defined.

(** ** UTF-8: encoding undoes decoding *)

Ltac split_tests H :=
  repeat match type of H with
         | context [?a <=? ?b] => destruct (Z.leb_spec a b)
         | context [?a <? ?b] => destruct (Z.ltb_spec a b)
         end.

Lemma utf8_encode_decoded_aux (n : nat) :
  forall bs s, (List.length bs <= n)%nat ->
    utf8_decode bs = Ok s -> utf8_encode s = Ok bs.
Proof.
  induction n as [|n IH]; intros bs s Hlen.
  - destruct bs; [|simpl in Hlen; lia]. now intros [= <-].
  - destruct bs as [|b0 r0]; [now intros [= <-]|].
    cbn [utf8_decode]. simpl in Hlen.
    destruct ((0 <=? b0) && (b0 <? 0x80)) eqn:T1.
    { destruct (utf8_decode r0) as [t|] eqn:Et; [|discriminate].
      simpl. intros [= <-]. apply IH in Et; [|lia].
      cbn [utf8_encode]. rewrite Et.
      apply andb_prop in T1 as [A B]. apply Z.leb_le in A. apply Z.ltb_lt in B.
      unfold utf8_encode_char.
      destruct (Z.ltb_spec b0 0); [lia|]. destruct (Z.ltb_spec b0 0x80); [|lia].
      reflexivity. }
    destruct ((0xC0 <=? b0) && (b0 <? 0xE0)) eqn:T2.
    { destruct r0 as [|b1 r1]; [discriminate|].
      unfold is_continuation.
      destruct ((0x80 <=? b1) && (b1 <=? 0xBF)
                && (0x80 <=? (b0 - 0xC0) * 64 + (b1 - 0x80))) eqn:T; [|discriminate].
      destruct (utf8_decode r1) as [t|] eqn:Et; [|discriminate].
      simpl. intros [= <-]. apply IH in Et; [|simpl in Hlen; lia].
      cbn [utf8_encode]. rewrite Et.
      apply andb_prop in T2 as [A B]. apply Z.leb_le in A. apply Z.ltb_lt in B.
      apply andb_prop in T as [T C]. apply andb_prop in T as [D E].
      apply Z.leb_le in C, D, E.
      set (c := (b0 - 0xC0) * 64 + (b1 - 0x80)) in *.
      unfold utf8_encode_char.
      destruct (Z.ltb_spec c 0); [lia|]. destruct (Z.ltb_spec c 0x80); [lia|].
      destruct (Z.ltb_spec c 0x800); [|subst c; lia].
      replace (0xC0 + c / 64) with b0 by (subst c; Z.div_mod_to_equations; lia).
      replace (0x80 + c mod 64) with b1 by (subst c; Z.div_mod_to_equations; lia).
      reflexivity. }
    destruct ((0xE0 <=? b0) && (b0 <? 0xF0)) eqn:T3.
    { destruct r0 as [|b1 [|b2 r2]]; [discriminate..|].
      unfold is_continuation.
      set (c := (b0 - 0xE0) * 4096 + (b1 - 0x80) * 64 + (b2 - 0x80)).
      destruct ((0x80 <=? b1) && (b1 <=? 0xBF) && ((0x80 <=? b2) && (b2 <=? 0xBF))
                && (0x800 <=? c) && negb (is_surrogate c)) eqn:T; [|discriminate].
      destruct (utf8_decode r2) as [t|] eqn:Et; [|discriminate].
      simpl. intros [= <-]. apply IH in Et; [|simpl in Hlen; lia].
      cbn [utf8_encode]. rewrite Et.
      apply andb_prop in T3 as [A B]. apply Z.leb_le in A. apply Z.ltb_lt in B.
      apply andb_prop in T as [T S]. apply andb_prop in T as [T C].
      apply andb_prop in T as [D E]. apply andb_prop in D as [D1 D2].
      apply andb_prop in E as [E1 E2].
      apply Z.leb_le in C, D1, D2, E1, E2. apply negb_true_iff in S.
      unfold utf8_encode_char. rewrite S.
      destruct (Z.ltb_spec c 0); [subst c; lia|].
      destruct (Z.ltb_spec c 0x80); [lia|].
      destruct (Z.ltb_spec c 0x800); [lia|].
      destruct (Z.ltb_spec c 0x10000); [|subst c; lia].
      replace (0xE0 + c / 4096) with b0 by (subst c; Z.div_mod_to_equations; lia).
      replace (0x80 + (c / 64) mod 64) with b1
        by (subst c; Z.div_mod_to_equations; lia).
      replace (0x80 + c mod 64) with b2 by (subst c; Z.div_mod_to_equations; lia).
      reflexivity. }
    destruct ((0xF0 <=? b0) && (b0 <? 0xF8)) eqn:T4; [|discriminate].
    destruct r0 as [|b1 [|b2 [|b3 r3]]]; [discriminate..|].
    unfold is_continuation.
    set (c := (b0 - 0xF0) * 262144 + (b1 - 0x80) * 4096
              + (b2 - 0x80) * 64 + (b3 - 0x80)).
    destruct ((0x80 <=? b1) && (b1 <=? 0xBF) && ((0x80 <=? b2) && (b2 <=? 0xBF))
              && ((0x80 <=? b3) && (b3 <=? 0xBF))
              && (0x10000 <=? c) && (c <? 0x110000)) eqn:T; [|discriminate].
    destruct (utf8_decode r3) as [t|] eqn:Et; [|discriminate].
    simpl. intros [= <-]. apply IH in Et; [|simpl in Hlen; lia].
    cbn [utf8_encode]. rewrite Et.
    apply andb_prop in T4 as [A B]. apply Z.leb_le in A. apply Z.ltb_lt in B.
    apply andb_prop in T as [T U]. apply andb_prop in T as [T C].
    apply andb_prop in T as [T F]. apply andb_prop in T as [D E].
    apply andb_prop in D as [D1 D2]. apply andb_prop in E as [E1 E2].
    apply andb_prop in F as [F1 F2].
    apply Z.leb_le in C, D1, D2, E1, E2, F1, F2. apply Z.ltb_lt in U.
    unfold utf8_encode_char.
    destruct (Z.ltb_spec c 0); [lia|].
    destruct (Z.ltb_spec c 0x80); [lia|].
    destruct (Z.ltb_spec c 0x800); [lia|].
    destruct (Z.ltb_spec c 0x10000); [lia|].
    destruct (Z.ltb_spec c 0x110000); [|lia].
    replace (0xF0 + c / 262144) with b0 by (subst c; Z.div_mod_to_equations; lia).
    replace (0x80 + (c / 4096) mod 64) with b1
      by (subst c; Z.div_mod_to_equations; lia).
    replace (0x80 + (c / 64) mod 64) with b2
      by (subst c; Z.div_mod_to_equations; lia).
    replace (0x80 + c mod 64) with b3 by (subst c; Z.div_mod_to_equations; lia).
    reflexivity.
Qed.

Lemma utf8_encode_decoded (bs s : list Z) :
  utf8_decode bs = Ok s -> utf8_encode s = Ok bs.
Proof. apply (utf8_encode_decoded_aux (List.length bs)). lia. Qed.

(** ** [content_hash] *)

(** X19. When [content] succeeds, [content_hash] is the SHA-1 digest of the
    bytes of the file from [start] to [end], as they are in the file: the
    second encoding, of the content, gives these bytes back and never fails.
    When [content] raises, [content_hash] raises the same exception. *)
Theorem content_hash_of_bytes (self : Source.t) (cu : SlitherCompilationUnit.t)
    (text bytes : list Z) :
  Source.compilation_unit self = Some cu ->
  SlitherCore.source_code (SlitherCompilationUnit.core cu)
    !! Filename.absolute (Source.filename self) = Some text ->
  utf8_encode text = Ok bytes ->
  (forall c, Source.content self = Ok c ->
     Source.content_hash self
     = Ok (SHA1.hexdigest (py_slice bytes (Source.start self) (Source.end_ self))))
  /\ (forall e, Source.content self = Raise e ->
        Source.content_hash self = Raise e).
Proof.
  intros Hcu Htext Hb. split.
  - intros c Hc. unfold Source.content_hash. rewrite Hc. simpl.
    unfold Source.content in Hc. rewrite Hcu, Htext, Hb in Hc. simpl in Hc.
    now rewrite (utf8_encode_decoded _ _ Hc).
  - intros e He. unfold Source.content_hash. now rewrite He.
Qed.

Lemma content_hash_of_bytes_witness :
  (forall c, Source.content demo_span = Ok c ->
     Source.content_hash demo_span
     = Ok (SHA1.hexdigest
             (py_slice [47; 47; 32; 0xC3; 0xA9; 0xE2; 0x82; 0xAC; 10;
                        99; 111; 110; 116; 114; 97; 99; 116; 32; 67; 32; 123;
                        125; 10]
                       (Source.start demo_span) (Source.end_ demo_span))))
  /\ (forall e, Source.content demo_span = Raise e ->
        Source.content_hash demo_span = Raise e).
Proof.
  exact (content_hash_of_bytes demo_span demo_cu demo_text _
           eq_refl eq_refl eq_refl).
Defined.

Section DecodeThenContent.

Context (cu : SlitherCompilationUnit.t) (cc : CryticCompile.t)
        (ds dl g3 : string) (sign : bool) (used : string) (sl sc el ec : Z)
        (before inside after bbefore binside bafter : list Z).
Hypothesis Hs : is_decimal ds = true.
Hypothesis Hl : is_decimal dl = true.
Hypothesis Hf : is_decimal g3 = true.
Hypothesis Hused :
  SlitherCompilationUnit.source_units cu !! signed_value sign g3 = Some used.
Hypothesis Hcc :
  SlitherCore.crytic_compile (SlitherCompilationUnit.core cu) = Some cc.
Hypothesis Hstart :
  CryticCompile.get_line_from_offset cc (CryticCompile.filename_lookup cc used)
    (digits_value 0 ds) = Some (sl, sc).
Hypothesis Hend :
  CryticCompile.get_line_from_offset cc (CryticCompile.filename_lookup cc used)
    (digits_value 0 ds + digits_value 0 dl) = Some (el, ec).
Hypothesis Htext :
  SlitherCore.source_code (SlitherCompilationUnit.core cu)
    !! Filename.absolute (CryticCompile.filename_lookup cc used)
  = Some (before ++ inside ++ after).
Hypothesis Hb : utf8_encode before = Ok bbefore.
Hypothesis Hi : utf8_encode inside = Ok binside.
Hypothesis Ha : utf8_encode after = Ok bafter.
Hypothesis Hoff : digits_value 0 ds = Z.of_nat (List.length bbefore).
Hypothesis Hlen : digits_value 0 dl = Z.of_nat (List.length binside).

(** X20. From the encoding to the text: when the three numbers of a triple
    have at most 4300 digits each, its start is the number of bytes of the
    text before some characters of the file of its index, and its length is
    the number of bytes of these characters, the content of the decoded span
    is these characters and its [content_hash] the SHA-1 digest of their
    bytes. *)
Theorem decode_then_content :
  exists span,
    _convert_source_mapping (encoding ds dl (file_group sign g3)) cu = Ok span
    /\ Source.content span = Ok inside
    /\ Source.content_hash span = Ok (SHA1.hexdigest binside).
Proof using Hs Hl Hf Hused Hcc Hstart Hend Htext Hb Hi Ha Hoff Hlen.
  rewrite (convert_wellformed cu ds dl g3 sign Hs Hl Hf), Hused, Hcc.
  unfold _compute_line. rewrite Hcc, Hstart, Hend.
  eexists. split; [reflexivity|].
  set (span := {| Source.start := _ |}).
  assert (Hc : Source.content span = Ok inside).
  { apply (content_on_boundaries span cu before inside after
             bbefore binside bafter); try assumption; try reflexivity.
    simpl. lia. }
  split; [exact Hc|].
  unfold Source.content_hash. rewrite Hc. simpl. now rewrite Hi.
Qed.

End DecodeThenContent.

Lemma decode_then_content_witness :
  exists span,
    _convert_source_mapping "9:8:0" demo_cu = Ok span
    /\ Source.content span = Ok (codepoints "contract")
    /\ Source.content_hash span = Ok (SHA1.hexdigest (codepoints "contract")).
Proof.
  exact (decode_then_content demo_cu demo_cc "9" "8" "0" false "a.sol" 2 1 2 9
           (codepoints "// " ++ [0xE9; 0x20AC; 10]) (codepoints "contract")
           (codepoints " C {}" ++ [10])
           [47; 47; 32; 0xC3; 0xA9; 0xE2; 0x82; 0xAC; 10] (codepoints "contract")
           (codepoints " C {}" ++ [10])
           eq_refl eq_refl eq_refl eq_refl eq_refl eq_refl eq_refl eq_refl
           eq_refl eq_refl eq_refl eq_refl eq_refl).
Defined.
